(** * jquery-google-analytics: a shallow embedding of the plugin

    The plugin (src/jquery.google-analytics.js) adds three entry points to
    jQuery: [$.trackPage], [$.trackEvent] and [$.fn.track].  They are
    embedded here as functions on an explicit browser state: the closure
    variable [pageTracker], the mutable [$.fn.track.defaults] object, the
    DOM elements with their classes and bound handlers, the pending
    window-load and script-load callbacks, and one trace of every call the
    plugin makes to a collaborator (console, Google Analytics, jQuery bind,
    user callbacks).

    Scope of the embedding.  Numbers are the integers.  A function value
    carries a name that stands for its identity and its source text, and a
    body that is a pure function of the page and of the element it is
    given.  jQuery's [extend], [each], [hasClass], [addClass] and [bind]
    are embedded after jQuery's own behaviour. *)

From Stdlib Require Import Ascii String.
From stdpp Require Import gmap strings list pretty.

Open Scope string_scope.

(** ** Page and elements *)

(** [document.location] and [document.referrer]. *)
Record page := {
  protocol : string;
  hostname : string;
  pathname : string;
  search : string;
  referrer : string
}.

(** What a callback can read from the element it is given:
    [element[0].hostname], [element.attr('href')] and the class list. *)
Record node := {
  node_hostname : option string;
  node_href : option string;
  node_class : list string
}.

(** ** JavaScript values *)

Inductive value :=
| VUndef
| VNull
| VBool (b : bool)
| VNum (n : Z)
| VStr (s : string)
| VFun (name : string) (body : page -> node -> value).

Definition of_option (o : option string) : value :=
  match o with Some s => VStr s | None => VUndef end.

Definition typeof (v : value) : string :=
  match v with
  | VUndef => "undefined"
  | VNull => "object"
  | VBool _ => "boolean"
  | VNum _ => "number"
  | VStr _ => "string"
  | VFun _ _ => "function"
  end.

(** ToString.  A number is an integer and is printed in decimal, as
    JavaScript prints the integers below 2^53 (see [exact_value]). *)
Definition to_string (v : value) : string :=
  match v with
  | VUndef => "undefined"
  | VNull => "null"
  | VBool true => "true"
  | VBool false => "false"
  | VNum n => pretty n
  | VStr s => s
  | VFun name _ => name
  end.

(** ToBoolean. *)
Definition truthy (v : value) : bool :=
  match v with
  | VUndef | VNull => false
  | VBool b => b
  | VNum n => negb (n =? 0)%Z
  | VStr s => negb (String.eqb s "")
  | VFun _ _ => true
  end.

(** [a && b]. *)
Definition js_and (a b : value) : value := if truthy a then b else a.

(** *** ToNumber on strings, for integer literals

    White space is trimmed, the empty string is 0, an optional sign is
    followed by decimal digits; [None] is NaN.  Literals with a fraction,
    an exponent or a radix prefix are not read: statements that depend
    on the number a string stands for are made for strings of digits (see
    [exact_value]). *)

Definition is_space (c : ascii) : bool :=
  let n := nat_of_ascii c in
  (n =? 32)%nat || ((9 <=? n)%nat && (n <=? 13)%nat).

Fixpoint drop_space (l : list ascii) : list ascii :=
  match l with
  | c :: r => if is_space c then drop_space r else l
  | [] => []
  end.

Definition trim (l : list ascii) : list ascii :=
  rev (drop_space (rev (drop_space l))).

Definition digit_of (c : ascii) : option Z :=
  let n := nat_of_ascii c in
  if (48 <=? n)%nat && (n <=? 57)%nat then Some (Z.of_nat (n - 48)) else None.

Fixpoint digits_value (acc : Z) (l : list ascii) : option Z :=
  match l with
  | [] => Some acc
  | c :: r =>
      match digit_of c with
      | Some d => digits_value (10 * acc + d) r
      | None => None
      end
  end.

Definition unsigned_value (l : list ascii) : option Z :=
  match l with
  | [] => None
  | _ => digits_value 0 l
  end.

Definition string_to_number (s : string) : option Z :=
  match trim (list_ascii_of_string s) with
  | [] => Some 0%Z
  | c :: r =>
      if Ascii.eqb c "-" then Z.opp <$> unsigned_value r
      else if Ascii.eqb c "+" then unsigned_value r
      else unsigned_value (c :: r)
  end.

(** ToPrimitive: a function becomes its source text. *)
Definition to_primitive (v : value) : value :=
  match v with
  | VFun name _ => VStr name
  | _ => v
  end.

(** ToNumber on the primitives that reach a numeric comparison. *)
Definition to_number (v : value) : option Z :=
  match v with
  | VBool b => Some (if b then 1 else 0)%Z
  | VNum n => Some n
  | VStr s => string_to_number s
  | _ => None
  end.

Definition number_eq (a b : option Z) : bool :=
  match a, b with
  | Some x, Some y => (x =? y)%Z
  | _, _ => false
  end.

(** The abstract equality comparison [x == y]. *)
Definition loose_eq (x y : value) : bool :=
  match x, y with
  | (VUndef | VNull), (VUndef | VNull) => true
  | (VUndef | VNull), _ => false
  | _, (VUndef | VNull) => false
  | VFun n1 _, VFun n2 _ => String.eqb n1 n2
  | _, _ =>
      match to_primitive x, to_primitive y with
      | VStr a, VStr b => String.eqb a b
      | p, q => number_eq (to_number p) (to_number q)
      end
  end.

(** The strict comparison [x === false] that [jQuery.each] applies to what
    its callback returns. *)
Definition is_false (v : value) : bool :=
  match v with
  | VBool false => true
  | _ => false
  end.

(** ** Objects used as option records *)

Definition is_undef (v : value) : bool :=
  match v with
  | VUndef => true
  | _ => false
  end.

(** Reading a property: a missing property reads as [undefined]. *)
Definition get (o : gmap string value) (k : string) : value :=
  default VUndef (o !! k).

(** One round of [jQuery.extend]'s outer loop: every property of [src]
    whose value is not [undefined] is copied over [target]. *)
Definition extend_with (target src : gmap string value) : gmap string value :=
  filter (fun kv => is_undef kv.2 = false) src ∪ target.

(** [$.extend(target, src1, src2, ...)]: arguments that are [null] or
    [undefined] are passed over. *)
Fixpoint extend (target : gmap string value)
    (srcs : list (option (gmap string value))) : gmap string value :=
  match srcs with
  | [] => target
  | None :: rest => extend target rest
  | Some src :: rest => extend (extend_with target src) rest
  end.

(** ** Browser state *)

(** The global [_gat] that ga.js defines. *)
Inductive gat_global := GatUndeclared | GatUndefined | GatLoaded.

Definition typeof_gat (g : gat_global) : string :=
  match g with
  | GatLoaded => "object"
  | _ => "undefined"
  end.

(** The global [console] and its [debug] method. *)
Inductive console_global := ConsoleMissing | ConsoleWithoutDebug | ConsoleReady.

Definition typeof_console (c : console_global) : string :=
  match c with
  | ConsoleMissing => "undefined"
  | _ => "object"
  end.

Definition typeof_console_debug (c : console_global) : string :=
  match c with
  | ConsoleReady => "function"
  | _ => "undefined"
  end.

(** The handle that [_gat._getTracker(account_id)] returns. *)
Record tracker := { tracker_account : value }.

Definition typeof_tracker (t : option tracker) : string :=
  match t with
  | Some _ => "object"
  | None => "undefined"
  end.

(** The closure that [$.fn.track] binds: it captures [$element],
    [settings], the four resolved fields and [message]. *)
Record handler := {
  h_element : nat;
  h_settings : gmap string value;
  h_category : value;
  h_action : value;
  h_label : value;
  h_value : value;
  h_message : string
}.

(** One call of [bind]: the type string and the handler it was given. *)
Record binding := { b_type : string; b_handler : handler }.

Record element := { el_node : node; el_events : list binding }.

(** What [load_script] and [init_analytics] capture from [$.trackPage]. *)
Record page_job := {
  job_src : string;
  job_account : value;
  job_settings : gmap string value
}.

(** Calls made to collaborators, in the order they happen. *)
Inductive call :=
| CConsoleDebug (msg : string)
| CCallback (name : string) (id : nat)
| CGetScript (src : string)
| CGetTracker (account : value)
| CTrackPageview (t : tracker) (path : option string)
| CTrackEvent (category action label val : value)
| CRecordEvent (t : tracker) (category action label val : value)
| CBind (id : nat) (type : string).

Record state := {
  st_page : page;
  st_console : console_global;
  st_gat : gat_global;
  defaults : gmap string value;
  pageTracker : option tracker;
  st_dom : gmap nat element;
  st_window_load : list page_job;
  st_script_load : list page_job;
  st_trace : list call
}.

Inductive error :=
| ReferenceError (identifier : string)
| TypeError (message : string)
| ThrownString (message : string).

Inductive outcome :=
| Done (st : state)
| Raised (e : error) (st : state).

Definition record_call (c : call) (st : state) : state :=
  {| st_page := st_page st; st_console := st_console st; st_gat := st_gat st;
     defaults := defaults st; pageTracker := pageTracker st;
     st_dom := st_dom st; st_window_load := st_window_load st;
     st_script_load := st_script_load st;
     st_trace := st_trace st ++ [c] |}.

Definition set_pageTracker (t : tracker) (st : state) : state :=
  {| st_page := st_page st; st_console := st_console st; st_gat := st_gat st;
     defaults := defaults st; pageTracker := Some t;
     st_dom := st_dom st; st_window_load := st_window_load st;
     st_script_load := st_script_load st;
     st_trace := st_trace st |}.

Definition set_dom (d : gmap nat element) (st : state) : state :=
  {| st_page := st_page st; st_console := st_console st; st_gat := st_gat st;
     defaults := defaults st; pageTracker := pageTracker st;
     st_dom := d; st_window_load := st_window_load st;
     st_script_load := st_script_load st;
     st_trace := st_trace st |}.

Definition set_window_load (l : list page_job) (st : state) : state :=
  {| st_page := st_page st; st_console := st_console st; st_gat := st_gat st;
     defaults := defaults st; pageTracker := pageTracker st;
     st_dom := st_dom st; st_window_load := l;
     st_script_load := st_script_load st;
     st_trace := st_trace st |}.

Definition set_script_load (l : list page_job) (st : state) : state :=
  {| st_page := st_page st; st_console := st_console st; st_gat := st_gat st;
     defaults := defaults st; pageTracker := pageTracker st;
     st_dom := st_dom st; st_window_load := st_window_load st;
     st_script_load := l;
     st_trace := st_trace st |}.

(** ** The [debug] helper (source lines 201-205) *)

Definition debug_enabled (st : state) : bool :=
  negb (loose_eq (VStr (typeof_console (st_console st))) (VStr "undefined"))
  && negb (loose_eq (VStr (typeof_console_debug (st_console st))) (VStr "undefined"))
  && truthy (get (defaults st) "debug").

Definition debug (message : string) (st : state) : state :=
  if debug_enabled st then record_call (CConsoleDebug message) st else st.

(** ** [$.trackPage] (source lines 71-110) *)

Definition page_defaults : gmap string value :=
  <["onload" := VBool true]> (<["status_code" := VNum 200]> ∅).

Definition error_path (status_code : value) (p : page) : string :=
  "/" ++ to_string status_code ++ ".html?page=" ++ pathname p ++ search p
      ++ "&from=" ++ referrer p.

Definition init_analytics (job : page_job) (st : state) : outcome :=
  if negb (loose_eq (VStr (typeof_gat (st_gat st))) VUndef) then
    let st1 := debug "Google Analytics loaded" st in
    match st_gat st1 with
    | GatUndeclared => Raised (ReferenceError "_gat") st1
    | GatUndefined => Raised (TypeError "_gat is undefined") st1
    | GatLoaded =>
        let t := {| tracker_account := job_account job |} in
        let st2 := set_pageTracker t (record_call (CGetTracker (job_account job)) st1) in
        let status_code := get (job_settings job) "status_code" in
        if loose_eq status_code VNull || loose_eq status_code (VNum 200) then
          Done (record_call (CTrackPageview t None) st2)
        else
          let st3 := debug ("Tracking error " ++ to_string status_code) st2 in
          Done (record_call
                  (CTrackPageview t (Some (error_path status_code (st_page st3))))
                  st3)
    end
  else Raised (ThrownString "_gat is undefined") st.

(** [$.getScript(src, callback)] starts the download and keeps the
    callback until the script has loaded. *)
Definition load_script (job : page_job) (st : state) : state :=
  let st1 := record_call (CGetScript (job_src job)) st in
  set_script_load (st_script_load st1 ++ [job]) st1.

Definition trackPage (account_id : value) (options : option (gmap string value))
    (st : state) : state :=
  let host :=
    if loose_eq (VStr "https:") (VStr (protocol (st_page st)))
    then "https://ssl." else "http://www." in
  let settings := extend ∅ [Some page_defaults; options] in
  let src := host ++ "google-analytics.com/ga.js" in
  let job := {| job_src := src; job_account := account_id;
                job_settings := settings |} in
  if loose_eq (get settings "onload") (VBool true)
     || loose_eq (get settings "onload") VNull
  then set_window_load (st_window_load st ++ [job]) st
  else load_script job st.

(** The page's load-complete signal: every handler registered with
    [$(window).load] runs. *)
Definition window_loaded (st : state) : state :=
  foldl (fun s job => load_script job s) st (st_window_load st).

(** The oldest pending script finishes loading: its callback runs. *)
Definition script_loaded (st : state) : outcome :=
  match st_script_load st with
  | [] => Done st
  | job :: rest => init_analytics job (set_script_load rest st)
  end.

(** ** [$.trackEvent] (source lines 121-128) *)

Definition trackEvent (category action label val : value) (st : state) : state :=
  let st0 := record_call (CTrackEvent category action label val) st in
  if loose_eq (VStr (typeof_tracker (pageTracker st0))) (VStr "undefined") then
    debug "FATAL ERROR: pageTracker is not defined" st0
  else
    match pageTracker st0 with
    | Some t => record_call (CRecordEvent t category action label val) st0
    | None => st0
    end.

(** ** [$.fn.track] (source lines 139-195 and 210-218) *)

(** The initial value of [$.fn.track.defaults]. *)
Definition track_defaults : gmap string value :=
  <["category" :=
      VFun "category"
        (fun p el =>
           if loose_eq (of_option (node_hostname el)) (VStr (hostname p))
           then VStr "internal" else VStr "external")]>
  (<["action" := VStr "click"]>
  (<["label" := VFun "label" (fun _ el => of_option (node_href el))]>
  (<["value" := VNull]>
  (<["skip_internal" := VBool true]>
  (<["event_name" := VStr "click"]>
  (<["debug" := VBool false]> ∅)))))).

(** An id that the DOM map does not hold is a blank element. *)
Definition blank : element :=
  {| el_node := {| node_hostname := None; node_href := None; node_class := [] |};
     el_events := [] |}.

Definition element_of (st : state) (id : nat) : element :=
  default blank (st_dom st !! id).

Definition hasClass (c : string) (el : element) : bool :=
  existsb (String.eqb c) (node_class (el_node el)).

Definition addClass (c : string) (el : element) : element :=
  if hasClass c el then el
  else {| el_node := {| node_hostname := node_hostname (el_node el);
                        node_href := node_href (el_node el);
                        node_class := node_class (el_node el) ++ [c] |};
          el_events := el_events el |}.

(** [$element.bind(type, handler)]: the call is kept with the type string
    as it was passed; the listeners that jQuery attaches for it, one per
    white-space separated token of the type, are given by [listeners]. *)
Definition bind (id : nat) (type : string) (h : handler) (st : state) : state :=
  let el := element_of st id in
  let el' := {| el_node := el_node el;
                el_events := el_events el ++ [{| b_type := type; b_handler := h |}] |} in
  record_call (CBind id type) (set_dom (<[id := el']> (st_dom st)) st).

(** [evaluate(element, stringOrFunction)] (source lines 190-195). *)
Definition evaluate (id : nat) (stringOrFunction : value) (st : state)
    : value * state :=
  if loose_eq (VStr (typeof stringOrFunction)) (VStr "function") then
    match stringOrFunction with
    | VFun name body =>
        (body (st_page st) (el_node (element_of st id)),
         record_call (CCallback name id) st)
    | _ => (stringOrFunction, st)
    end
  else (stringOrFunction, st).

Definition message_of (category action label val : value) : string :=
  "category:'" ++ to_string category ++ "' action:'" ++ to_string action
    ++ "' label:'" ++ to_string label ++ "' value:'" ++ to_string val ++ "'".

(** The function that [$.fn.track] passes to [each]; the result pairs what
    the function returns with the state it leaves. *)
Definition track_element (options : option (gmap string value)) (id : nat)
    (st : state) : value * state :=
  if hasClass "tracked" (element_of st id) then (VBool false, st)
  else
    let st0 := set_dom (<[id := addClass "tracked" (element_of st id)]> (st_dom st)) st in
    let settings := extend ∅ [Some (defaults st0); options] in
    let '(category, st1) := evaluate id (get settings "category") st0 in
    let '(action, st2) := evaluate id (get settings "action") st1 in
    let '(label, st3) := evaluate id (get settings "label") st2 in
    let '(val, st4) := evaluate id (get settings "value") st3 in
    let '(event_name, st5) := evaluate id (get settings "event_name") st4 in
    let message := message_of category action label val in
    let st6 := debug ("Tracking " ++ to_string event_name ++ " " ++ message) st5 in
    let h := {| h_element := id; h_settings := settings;
                h_category := category; h_action := action;
                h_label := label; h_value := val; h_message := message |} in
    (VUndef, bind id (to_string event_name ++ ".track") h st6).

(** [jQuery.each]: the loop ends as soon as the callback returns [false]. *)
Fixpoint each (f : nat -> state -> value * state) (ids : list nat) (st : state)
    : state :=
  match ids with
  | [] => st
  | id :: rest =>
      let '(r, st') := f id st in
      if is_false r then st' else each f rest st'
  end.

(** [$(sel).track(options)]: the wrapped elements and the state left. *)
Definition track (ids : list nat) (options : option (gmap string value))
    (st : state) : list nat * state :=
  (ids, each (track_element options) ids st).

(** The bound handler (source lines 166-179). *)
Definition run_handler (h : handler) (st : state) : value * state :=
  let skip :=
    js_and (get (h_settings h) "skip_internal")
           (VBool (loose_eq
                     (of_option (node_hostname (el_node (element_of st (h_element h)))))
                     (VStr (hostname (st_page st))))) in
  if negb (truthy skip) then
    (VBool true,
     debug ("Tracked " ++ h_message h)
           (trackEvent (h_category h) (h_action h) (h_label h) (h_value h) st))
  else
    (VBool true, debug ("Skipped " ++ h_message h) st).

(** Triggering the namespaced event [type] on an element, as
    [$(el).trigger(type)] does, for a [type] that is the whole type string
    of a [bind] call: the handlers of those calls run, in binding order.
    An event that the browser raises also runs handlers bound under other
    namespaces of its name; what the statements below say of the handlers
    that run holds for each run of a handler. *)
Definition handlers_of (type : string) (el : element) : list handler :=
  b_handler <$> filter (fun b => String.eqb (b_type b) type = true) (el_events el).

Definition trigger (id : nat) (type : string) (st : state) : state :=
  foldl (fun s h => (run_handler h s).2) st (handlers_of type (element_of st id)).

(** ** Observations on traces and states *)

Definition is_record (c : call) : bool :=
  match c with
  | CTrackPageview _ _ | CRecordEvent _ _ _ _ _ => true
  | _ => false
  end.

Definition is_pageview (c : call) : bool :=
  match c with
  | CTrackPageview _ _ => true
  | _ => false
  end.

Definition is_track_event (c : call) : bool :=
  match c with
  | CTrackEvent _ _ _ _ => true
  | _ => false
  end.

Definition is_callback (c : call) : bool :=
  match c with
  | CCallback _ _ => true
  | _ => false
  end.

(** What the console has printed. *)
Definition console_message (c : call) : option string :=
  match c with
  | CConsoleDebug m => Some m
  | _ => None
  end.

Definition console_output (st : state) : list string :=
  omap console_message (st_trace st).

(** The calls with which [evaluate] invoked callbacks. *)
Definition callbacks_of (v : value) (id : nat) : list call :=
  match v with
  | VFun name _ => [CCallback name id]
  | _ => []
  end.

(** The literal or the callback's result. *)
Definition resolved (p : page) (n : node) (v : value) : value :=
  match v with
  | VFun _ body => body p n
  | _ => v
  end.

(** A page in its initial condition. *)
Definition initial (p : page) (c : console_global) (g : gat_global)
    (d : gmap nat element) : state :=
  {| st_page := p; st_console := c; st_gat := g; defaults := track_defaults;
     pageTracker := None; st_dom := d; st_window_load := [];
     st_script_load := []; st_trace := [] |}.

(** Appending calls to the trace; every step of the plugin that touches
    neither [pageTracker], the DOM nor the pending callbacks has this
    shape. *)
Definition add_calls (cs : list call) (st : state) : state :=
  {| st_page := st_page st; st_console := st_console st; st_gat := st_gat st;
     defaults := defaults st; pageTracker := pageTracker st;
     st_dom := st_dom st; st_window_load := st_window_load st;
     st_script_load := st_script_load st;
     st_trace := st_trace st ++ cs |}.

Definition debug_calls (message : string) (st : state) : list call :=
  if debug_enabled st then [CConsoleDebug message] else [].

(** Several calls of [$.fn.track], each with its own elements and options. *)
Definition track_all (calls : list (list nat * option (gmap string value)))
    (st : state) : state :=
  foldl (fun s c => (track c.1 c.2 s).2) st calls.

(** Several events, each triggered on an element under a namespaced type. *)
Definition trigger_all (fires : list (nat * string)) (st : state) : state :=
  foldl (fun s f => trigger f.1 f.2 s) st fires.





(** Reading a property of an options argument that may be missing. *)
Definition option_get (options : option (gmap string value)) (k : string)
    : value :=
  match options with
  | Some o => get o k
  | None => VUndef
  end.

(** Two states that agree on everything but the [debug] property of the
    settings captured by bound handlers. *)
Definition same_settings (s1 s2 : gmap string value) : Prop :=
  forall k, k <> "debug" -> get s1 k = get s2 k.

Definition same_handler (h1 h2 : handler) : Prop :=
  h_element h1 = h_element h2
  /\ same_settings (h_settings h1) (h_settings h2)
  /\ h_category h1 = h_category h2
  /\ h_action h1 = h_action h2
  /\ h_label h1 = h_label h2
  /\ h_value h1 = h_value h2
  /\ h_message h1 = h_message h2.

Definition same_binding (b1 b2 : binding) : Prop :=
  b_type b1 = b_type b2 /\ same_handler (b_handler b1) (b_handler b2).

Definition same_element (e1 e2 : element) : Prop :=
  el_node e1 = el_node e2 /\ Forall2 same_binding (el_events e1) (el_events e2).

Definition same_state (s1 s2 : state) : Prop :=
  st_page s1 = st_page s2
  /\ st_console s1 = st_console s2
  /\ st_gat s1 = st_gat s2
  /\ defaults s1 = defaults s2
  /\ pageTracker s1 = pageTracker s2
  /\ st_window_load s1 = st_window_load s2
  /\ st_script_load s1 = st_script_load s2
  /\ st_trace s1 = st_trace s2
  /\ forall id, same_element (element_of s1 id) (element_of s2 id).

(** The handler that [track_element] builds for an unmarked element. *)
Definition attached_handler (options : option (gmap string value)) (id : nat)
    (st : state) : handler :=
  let settings := extend ∅ [Some (defaults st); options] in
  let n := el_node (addClass "tracked" (element_of st id)) in
  let category := resolved (st_page st) n (get settings "category") in
  let action := resolved (st_page st) n (get settings "action") in
  let label := resolved (st_page st) n (get settings "label") in
  let val := resolved (st_page st) n (get settings "value") in
  {| h_element := id; h_settings := settings;
     h_category := category; h_action := action;
     h_label := label; h_value := val;
     h_message := message_of category action label val |}.

(** The namespaced type under which [track_element] binds it. *)
Definition attached_type (options : option (gmap string value)) (id : nat)
    (st : state) : string :=
  let settings := extend ∅ [Some (defaults st); options] in
  let n := el_node (addClass "tracked" (element_of st id)) in
  to_string (resolved (st_page st) n (get settings "event_name")) ++ ".track".

(** ** A sample page

    A page at example.org with three links: element 1 points to the same
    host and its author gave it the class [tracked], element 2 points to
    another host, element 3 points to the same host. *)

Definition sample_page : page :=
  {| protocol := "http:"; hostname := "example.org"; pathname := "/foo";
     search := "?x=1"; referrer := "https://ref.example" |}.

Definition anchor (host : string) (classes : list string) : element :=
  {| el_node := {| node_hostname := Some host;
                   node_href := Some ("http://" ++ host ++ "/");
                   node_class := classes |};
     el_events := [] |}.

Definition sample_dom : gmap nat element :=
  <[1%nat := anchor "example.org" ["tracked"]]>
  (<[2%nat := anchor "other.example" []]>
  (<[3%nat := anchor "example.org" []]> ∅)).

Definition sample_state : state :=
  initial sample_page ConsoleReady GatLoaded sample_dom.

(** [$.fn.track.defaults.debug = v]. *)
Definition set_default_debug (v : value) (st : state) : state :=
  {| st_page := st_page st; st_console := st_console st; st_gat := st_gat st;
     defaults := <["debug" := v]> (defaults st); pageTracker := pageTracker st;
     st_dom := st_dom st; st_window_load := st_window_load st;
     st_script_load := st_script_load st;
     st_trace := st_trace st |}.

(** The page before ga.js has defined [_gat]. *)
Definition without_gat (st : state) : state :=
  {| st_page := st_page st; st_console := st_console st;
     st_gat := GatUndeclared;
     defaults := defaults st; pageTracker := pageTracker st;
     st_dom := st_dom st; st_window_load := st_window_load st;
     st_script_load := st_script_load st;
     st_trace := st_trace st |}.

Definition sample_job (status_code : value) : page_job :=
  {| job_src := "http://www.google-analytics.com/ga.js";
     job_account := VStr "UA-1-1";
     job_settings := <["status_code" := status_code]> page_defaults |}.

Definition sample_tracker : tracker := {| tracker_account := VStr "UA-1-1" |}.


(** ** Further observations *)

(** Calls that reach Google Analytics or enter [$.trackEvent]. *)
Definition is_analytics (c : call) : bool :=
  match c with
  | CGetTracker _ | CTrackPageview _ _ | CTrackEvent _ _ _ _
  | CRecordEvent _ _ _ _ _ => true
  | _ => false
  end.

(** Calls that a bound handler can make. *)
Definition is_handler_call (c : call) : bool :=
  match c with
  | CTrackEvent _ _ _ _ | CRecordEvent _ _ _ _ _ | CConsoleDebug _ => true
  | _ => false
  end.

(** Calls made while a page is set up: script request, tracker, pageview. *)
Definition is_page_call (c : call) : bool :=
  match c with
  | CGetScript _ | CGetTracker _ | CTrackPageview _ _ => true
  | _ => false
  end.

(** The line that [track_element] passes to [debug] for an unmarked
    element. *)
Definition tracking_message (options : option (gmap string value)) (id : nat)
    (st : state) : string :=
  let settings := extend ∅ [Some (defaults st); options] in
  let n := el_node (addClass "tracked" (element_of st id)) in
  "Tracking " ++ to_string (resolved (st_page st) n (get settings "event_name"))
    ++ " " ++ h_message (attached_handler options id st).

(** Everything in a state but its DOM and its trace. *)
Definition same_globals (s1 s2 : state) : Prop :=
  st_page s1 = st_page s2
  /\ st_console s1 = st_console s2
  /\ st_gat s1 = st_gat s2
  /\ defaults s1 = defaults s2
  /\ pageTracker s1 = pageTracker s2
  /\ st_window_load s1 = st_window_load s2
  /\ st_script_load s1 = st_script_load s2.

(** What a page can do with the plugin without a script finishing to
    load: call one of its three entry points, trigger an event on an
    element, or reach its load-complete signal. *)
Inductive action :=
| ATrackPage (account_id : value) (options : option (gmap string value))
| ATrackEvent (category action_ label val : value)
| ATrack (ids : list nat) (options : option (gmap string value))
| ATrigger (id : nat) (type : string)
| AWindowLoaded.

Definition perform (a : action) (st : state) : state :=
  match a with
  | ATrackPage account_id options => trackPage account_id options st
  | ATrackEvent c a l v => trackEvent c a l v st
  | ATrack ids options => (track ids options st).2
  | ATrigger id type => trigger id type st
  | AWindowLoaded => window_loaded st
  end.

Definition perform_all (acts : list action) (st : state) : state :=
  foldl (fun s a => perform a s) st acts.

(** Whether an element's host is the page's host, as [==] sees it. *)
Definition same_host (p : page) (n : node) : bool :=
  loose_eq (of_option (node_hostname n)) (VStr (hostname p)).

(** The URL of ga.js for a page. *)
Definition ga_src (p : page) : string :=
  (if String.eqb "https:" (protocol p) then "https://ssl." else "http://www.")
  ++ "google-analytics.com/ga.js".

(** [$.fn.track.defaults = d], or any sequence of assignments to its
    properties that leaves it as [d]. *)
Definition set_defaults (d : gmap string value) (st : state) : state :=
  {| st_page := st_page st; st_console := st_console st; st_gat := st_gat st;
     defaults := d; pageTracker := pageTracker st;
     st_dom := st_dom st; st_window_load := st_window_load st;
     st_script_load := st_script_load st;
     st_trace := st_trace st |}.

(** ** Values on which the coercions are exact

    The numbers of the model are integers printed in decimal, and
    [string_to_number] reads integer literals only.  JavaScript agrees
    with both on [undefined], [null], the booleans, the integers below
    2^53 in absolute value and the strings of decimal digits.  Statements
    that depend on how a value compares with a number or a boolean under
    [==], or on how a number is printed, are made for these values. *)

Definition is_digit (c : ascii) : bool :=
  match digit_of c with
  | Some _ => true
  | None => false
  end.

Definition exact_value (v : value) : bool :=
  match v with
  | VUndef | VNull | VBool _ => true
  | VNum n => (Z.abs n <? 2 ^ 53)%Z
  | VStr s => forallb is_digit (list_ascii_of_string s)
  | VFun _ _ => false
  end.

(** ** Listeners

    [el_events] keeps the calls of [bind] made on an element, each with
    the type string it was given.  jQuery attaches one listener per
    white-space separated token of that string: [bound_types] gives the
    tokens of a call and [listeners] the listeners of an element, each
    with the token (event name and namespaces) it is attached under. *)

Fixpoint split_at (sep : ascii -> bool) (cur l : list ascii)
    : list (list ascii) :=
  match l with
  | [] => [rev cur]
  | c :: r =>
      if sep c then rev cur :: split_at sep [] r
      else split_at sep (c :: cur) r
  end.

Definition bound_types (type : string) : list string :=
  string_of_list_ascii
    <$> List.filter (fun t => match t with [] => false | _ => true end)
          (split_at is_space [] (list_ascii_of_string type)).

Definition listeners (el : element) : list (string * handler) :=
  flat_map (fun b => map (fun t => (t, b_handler b)) (bound_types (b_type b)))
    (el_events el).



(** The console prints: the condition of [debug] (source line 202). *)
Definition logging_on (st : state) : Prop :=
  st_console st = ConsoleReady /\ truthy (get (defaults st) "debug") = true.

(** The page with [$.fn.track.defaults.debug = true]. *)
Definition verbose_state : state := set_default_debug (VBool true) sample_state.

(** ** Properties of the embedding *)

(** *** Option records *)

Lemma lookup_extend_with (target src : gmap string value) (k : string) :
  extend_with target src !! k =
  match src !! k with
  | Some v => if is_undef v then target !! k else Some v
  | None => target !! k
  end.
Proof.
  unfold extend_with.
  destruct (src !! k) as [v|] eqn:Hs.
  - destruct (is_undef v) eqn:Hu.
    + rewrite lookup_union_r; [done|].
      apply map_lookup_filter_None. right. intros x Hx Hf.
      simpl in Hf. rewrite Hs in Hx. injection Hx as <-. congruence.
    + erewrite lookup_union_Some_l; [done|].
      apply map_lookup_filter_Some. auto.
  - rewrite lookup_union_r; [done|].
    apply map_lookup_filter_None. left. done.
Qed.

Lemma get_extend_with (target src : gmap string value) (k : string) :
  get (extend_with target src) k =
  if is_undef (get src k) then get target k else get src k.
Proof.
  unfold get. rewrite lookup_extend_with.
  destruct (src !! k) as [v|]; simpl; [|done].
  destruct (is_undef v) eqn:Hu; [done|]. done.
Qed.

Lemma get_empty (k : string) : get ∅ k = VUndef.
Proof. unfold get. by rewrite lookup_empty. Qed.

(** The merged settings: the caller's value where it is defined, the
    default otherwise. *)
Lemma get_merged (d : gmap string value) (options : option (gmap string value))
    (k : string) :
  get (extend ∅ [Some d; options]) k =
  if is_undef (option_get options k) then get d k else option_get options k.
Proof.
  destruct options as [o|]; simpl.
  - rewrite !get_extend_with, get_empty.
    destruct (is_undef (get o k)) eqn:Ho; [|done].
    destruct (get d k); done.
  - rewrite get_extend_with, get_empty. destruct (get d k); done.
Qed.

(** *** Steps that only extend the trace *)

Lemma add_calls_nil (st : state) : add_calls [] st = st.
Proof. destruct st. unfold add_calls. simpl. by rewrite app_nil_r. Qed.

Lemma add_calls_app (cs1 cs2 : list call) (st : state) :
  add_calls cs2 (add_calls cs1 st) = add_calls (cs1 ++ cs2) st.
Proof. unfold add_calls. simpl. by rewrite app_assoc. Qed.

Lemma record_call_add (c : call) (st : state) :
  record_call c st = add_calls [c] st.
Proof. reflexivity. Qed.

Lemma debug_enabled_add_calls (cs : list call) (st : state) :
  debug_enabled (add_calls cs st) = debug_enabled st.
Proof. reflexivity. Qed.

Lemma debug_add (message : string) (st : state) :
  debug message st = add_calls (debug_calls message st) st.
Proof.
  unfold debug, debug_calls. destruct (debug_enabled st); [done|].
  by rewrite add_calls_nil.
Qed.

Lemma evaluate_add (id : nat) (v : value) (st : state) :
  evaluate id v st =
  (resolved (st_page st) (el_node (element_of st id)) v,
   add_calls (callbacks_of v id) st).
Proof.
  unfold evaluate. destruct v; simpl; try by rewrite add_calls_nil.
  reflexivity.
Qed.

Lemma trackEvent_add (c a l v : value) (st : state) :
  trackEvent c a l v st =
  add_calls
    (CTrackEvent c a l v ::
     match pageTracker st with
     | Some t => [CRecordEvent t c a l v]
     | None => debug_calls "FATAL ERROR: pageTracker is not defined" st
     end) st.
Proof.
  unfold trackEvent. simpl pageTracker.
  destruct (pageTracker st) as [t|]; simpl.
  - rewrite !record_call_add, add_calls_app. reflexivity.
  - rewrite debug_add, record_call_add, add_calls_app. reflexivity.
Qed.

(** Whether the bound handler skips the event. *)
Lemma skip_truthy (a : value) (b : bool) :
  truthy (js_and a (VBool b)) = truthy a && b.
Proof. unfold js_and. destruct (truthy a) eqn:E; simpl; [done|]. exact E. Qed.

Lemma run_handler_add (h : handler) (st : state) :
  run_handler h st =
  (VBool true,
   add_calls
     (if truthy (get (h_settings h) "skip_internal")
         && loose_eq (of_option (node_hostname (el_node (element_of st (h_element h)))))
                     (VStr (hostname (st_page st)))
      then debug_calls ("Skipped " ++ h_message h) st
      else CTrackEvent (h_category h) (h_action h) (h_label h) (h_value h) ::
           match pageTracker st with
           | Some t => [CRecordEvent t (h_category h) (h_action h) (h_label h) (h_value h)]
           | None => debug_calls "FATAL ERROR: pageTracker is not defined" st
           end ++ debug_calls ("Tracked " ++ h_message h) st)
     st).
Proof.
  unfold run_handler. rewrite skip_truthy.
  destruct (truthy _ && loose_eq _ _); simpl negb; cbv iota.
  - by rewrite debug_add.
  - rewrite debug_add, trackEvent_add, add_calls_app.
    unfold debug_calls at 2. rewrite debug_enabled_add_calls.
    reflexivity.
Qed.

(** *** What [track_element] does to an element *)

Lemma track_element_marked (options : option (gmap string value)) (id : nat)
    (st : state) :
  hasClass "tracked" (element_of st id) = true ->
  track_element options id st = (VBool false, st).
Proof. intros H. unfold track_element. by rewrite H. Qed.

Lemma track_element_unmarked (options : option (gmap string value)) (id : nat)
    (st : state) :
  hasClass "tracked" (element_of st id) = false ->
  let settings := extend ∅ [Some (defaults st); options] in
  let n := el_node (addClass "tracked" (element_of st id)) in
  let el' := {| el_node := n;
                el_events := el_events (element_of st id)
                  ++ [{| b_type := attached_type options id st;
                         b_handler := attached_handler options id st |}] |} in
  track_element options id st =
  (VUndef,
   set_dom (<[id := el']> (st_dom st))
     (add_calls
        (callbacks_of (get settings "category") id
         ++ callbacks_of (get settings "action") id
         ++ callbacks_of (get settings "label") id
         ++ callbacks_of (get settings "value") id
         ++ callbacks_of (get settings "event_name") id
         ++ debug_calls ("Tracking "
              ++ to_string (resolved (st_page st) n (get settings "event_name"))
              ++ " " ++ h_message (attached_handler options id st)) st
         ++ [CBind id (attached_type options id st)])
        st)).
Proof.
  intros H. unfold track_element. rewrite H.
  rewrite !evaluate_add. simpl defaults.
  rewrite debug_add, !add_calls_app.
  unfold bind. rewrite record_call_add.
  f_equal. unfold attached_type, attached_handler, debug_calls, element_of, add_calls,
    set_dom; simpl.
  rewrite !lookup_insert_eq. simpl.
  rewrite insert_insert_eq.
  unfold addClass. fold (element_of st id). rewrite H. simpl.
  rewrite <- !app_assoc. reflexivity.
Qed.

Lemma element_of_set_dom_ne (id j : nat) (el : element) (cs : list call)
    (st : state) :
  id <> j ->
  element_of (set_dom (<[id := el]> (st_dom st)) (add_calls cs st)) j
  = element_of st j.
Proof. intros Hne. unfold element_of. simpl. by rewrite lookup_insert_ne. Qed.

Lemma element_of_set_dom_add (id : nat) (el : element) (cs : list call)
    (st : state) :
  element_of (set_dom (<[id := el]> (st_dom st)) (add_calls cs st)) id = el.
Proof. unfold element_of. simpl. by rewrite lookup_insert_eq. Qed.

(** [track_element] leaves every other element as it was. *)
Lemma track_element_other (options : option (gmap string value)) (id j : nat)
    (st : state) :
  id <> j ->
  element_of (track_element options id st).2 j = element_of st j.
Proof.
  intros Hne.
  destruct (hasClass "tracked" (element_of st id)) eqn:H.
  - by rewrite track_element_marked.
  - rewrite track_element_unmarked by done. simpl.
    by apply element_of_set_dom_ne.
Qed.

(** On an unmarked element it sets the mark and binds one handler. *)
Lemma track_element_self (options : option (gmap string value)) (id : nat)
    (st : state) :
  hasClass "tracked" (element_of st id) = false ->
  element_of (track_element options id st).2 id =
  {| el_node := el_node (addClass "tracked" (element_of st id));
     el_events := el_events (element_of st id)
       ++ [{| b_type := attached_type options id st;
              b_handler := attached_handler options id st |}] |}.
Proof.
  intros H. rewrite track_element_unmarked by done. simpl.
  apply element_of_set_dom_add.
Qed.

Lemma hasClass_addClass (c : string) (el : element) :
  hasClass c (addClass c el) = true.
Proof.
  unfold addClass. destruct (hasClass c el) eqn:H; [done|].
  unfold hasClass. simpl. rewrite existsb_app. simpl.
  rewrite String.eqb_refl. by rewrite orb_true_r.
Qed.

(** A marked element stays as it is through [each]. *)
Lemma each_marked (options : option (gmap string value)) (ids : list nat)
    (id : nat) (st : state) :
  hasClass "tracked" (element_of st id) = true ->
  element_of (each (track_element options) ids st) id = element_of st id.
Proof.
  revert st. induction ids as [|j ids IH]; intros st H; simpl; [done|].
  destruct (track_element options j st) as [r st'] eqn:E.
  assert (Hsame : element_of st' id = element_of st id).
  { destruct (decide (j = id)) as [->|Hne].
    - rewrite track_element_marked in E by done. by injection E as _ <-.
    - replace st' with (track_element options j st).2 by (by rewrite E).
      by apply track_element_other. }
  destruct (is_false r); [done|].
  rewrite IH; [done|]. by rewrite Hsame.
Qed.

Lemma track_all_marked (calls : list (list nat * option (gmap string value)))
    (id : nat) (st : state) :
  hasClass "tracked" (element_of st id) = true ->
  element_of (track_all calls st) id = element_of st id.
Proof.
  revert st. induction calls as [|[ids o] calls IH]; intros st H; simpl; [done|].
  unfold track_all in *. simpl.
  rewrite IH; rewrite each_marked; done.
Qed.

(** [each] stops at the first marked element. *)
Lemma each_stops (options : option (gmap string value)) (id : nat)
    (rest : list nat) (st : state) :
  hasClass "tracked" (element_of st id) = true ->
  each (track_element options) (id :: rest) st = st.
Proof. intros H. simpl. by rewrite track_element_marked. Qed.

(** *** The attach-once invariant *)







(** *** Attachment *)







(** C2: on the sample page, [$.fn.track] called on the elements 1, 2, 3,
    of which the first carries the mark, returns the three elements and
    leaves the page as it was: elements 2 and 3 get no handler, although
    each gets one when the call starts at element 2. *)
Theorem track_stops_at_marked_element :
  (track [1; 2; 3] None sample_state).1 = [1; 2; 3]
  /\ (track [1; 2; 3] None sample_state).2 = sample_state
  /\ el_events (element_of (track [1; 2; 3] None sample_state).2 2) = []
  /\ el_events (element_of (track [1; 2; 3] None sample_state).2 3) = []
  /\ length (el_events (element_of (track [2; 3] None sample_state).2 2)) = 1
  /\ length (el_events (element_of (track [2; 3] None sample_state).2 3)) = 1.
Proof.
  assert (H : (track [1; 2; 3] None sample_state).2 = sample_state).
  { unfold track. cbn [snd]. apply each_stops. reflexivity. }
  rewrite H. repeat split; reflexivity.
Qed.

(** C9: an element that carries the class [tracked] and no handler before
    [$.fn.track] is ever called gets no handler from any number of calls,
    and triggering any event type on it afterwards does nothing. *)
Theorem preexisting_tracked_class_is_never_tracked
    (calls : list (list nat * option (gmap string value))) (st : state)
    (id : nat) (type : string) :
  hasClass "tracked" (element_of st id) = true ->
  el_events (element_of st id) = [] ->
  el_events (element_of (track_all calls st) id) = []
  /\ trigger id type (track_all calls st) = track_all calls st.
Proof.
  intros Hm He.
  assert (H : el_events (element_of (track_all calls st) id) = []).
  { by rewrite track_all_marked. }
  split; [exact H|].
  unfold trigger, handlers_of. rewrite H. reflexivity.
Qed.

Lemma preexisting_tracked_class_is_never_tracked_witness :
  hasClass "tracked" (element_of sample_state 1) = true
  /\ el_events (element_of sample_state 1) = []
  /\ el_events (element_of (track_all [([1; 2], None); ([1], None)] sample_state) 1) = []
  /\ trigger 1 "click.track" (track_all [([1; 2], None); ([1], None)] sample_state)
     = track_all [([1; 2], None); ([1], None)] sample_state.
Proof.
  split; [reflexivity|]. split; [reflexivity|].
  exact (preexisting_tracked_class_is_never_tracked
           [([1; 2], None); ([1], None)] sample_state 1 "click.track"
           eq_refl eq_refl).
Defined.

(** *** Page tracking *)

Lemma filter_app_calls (f : call -> bool) (l1 l2 : list call) :
  List.filter f (l1 ++ l2) = (List.filter f l1 ++ List.filter f l2)%list.
Proof. apply List.filter_app. Qed.

Lemma filter_debug_calls (f : call -> bool) (message : string) (st : state) :
  (forall m, f (CConsoleDebug m) = false) ->
  List.filter f (debug_calls message st) = [].
Proof.
  intros Hf. unfold debug_calls. destruct (debug_enabled st); simpl; [|done].
  by rewrite Hf.
Qed.

(** C3: when [init_analytics] runs while [_gat] is undefined (undeclared,
    or declared without a value), it raises an error, [pageTracker] keeps
    the value it had, and the trace gains neither a [_getTracker] call
    nor a recorded pageview or event.  The error is the engine's, raised
    by [_gat._getTracker] after [debug('Google Analytics loaded')]. *)
Theorem init_analytics_without_gat_raises (job : page_job) (st : state) :
  typeof_gat (st_gat st) = "undefined" ->
  exists e st',
    init_analytics job st = Raised e st'
    /\ (e = ReferenceError "_gat" \/ e = TypeError "_gat is undefined")
    /\ st' = debug "Google Analytics loaded" st
    /\ pageTracker st' = pageTracker st
    /\ List.filter (fun c => is_record c
                             || match c with CGetTracker _ => true | _ => false end)
         (st_trace st')
       = List.filter (fun c => is_record c
                               || match c with CGetTracker _ => true | _ => false end)
           (st_trace st).
Proof.
  intros Hg. unfold init_analytics.
  rewrite debug_add.
  destruct (st_gat st) eqn:E; simpl in Hg; try discriminate; simpl; rewrite E.
  - eexists _, _. split; [reflexivity|]. split; [by left|].
    split; [reflexivity|]. split; [reflexivity|].
    simpl. rewrite filter_app_calls, filter_debug_calls by done.
    by rewrite app_nil_r.
  - eexists _, _. split; [reflexivity|]. split; [by right|].
    split; [reflexivity|]. split; [reflexivity|].
    simpl. rewrite filter_app_calls, filter_debug_calls by done.
    by rewrite app_nil_r.
Qed.

Lemma init_analytics_without_gat_raises_witness :
  typeof_gat (st_gat (without_gat sample_state)) = "undefined"
  /\ exists e st',
       init_analytics (sample_job (VNum 200)) (without_gat sample_state)
       = Raised e st'
       /\ (e = ReferenceError "_gat" \/ e = TypeError "_gat is undefined")
       /\ st' = debug "Google Analytics loaded" (without_gat sample_state)
       /\ pageTracker st' = pageTracker (without_gat sample_state)
       /\ List.filter (fun c => is_record c
                                || match c with CGetTracker _ => true | _ => false end)
            (st_trace st')
          = List.filter (fun c => is_record c
                                  || match c with CGetTracker _ => true | _ => false end)
              (st_trace (without_gat sample_state)).
Proof.
  split; [reflexivity|].
  exact (init_analytics_without_gat_raises (sample_job (VNum 200))
           (without_gat sample_state) eq_refl).
Defined.

(** C5: when [init_analytics] runs with [_gat] loaded and a merged
    [status_code] that is missing, [null], a boolean, an integer below
    2^53 or a string of digits, it returns and records exactly one
    pageview: without a path when [status_code] is [null] (or missing) or
    [== 200], and otherwise with the path ['/' + status_code
    + '.html?page=' + pathname + search + '&from=' + referrer]; a number
    is [== 200] only if it is 200. *)
Theorem pageview_dichotomy (job : page_job) (st : state) :
  st_gat st = GatLoaded ->
  exact_value (get (job_settings job) "status_code") = true ->
  let status_code := get (job_settings job) "status_code" in
  let t := {| tracker_account := job_account job |} in
  (exists st',
     init_analytics job st = Done st'
     /\ pageTracker st' = Some t
     /\ List.filter is_pageview (st_trace st')
        = (List.filter is_pageview (st_trace st)
           ++ [CTrackPageview t
                 (if loose_eq status_code VNull || loose_eq status_code (VNum 200)
                  then None
                  else Some ("/" ++ to_string status_code ++ ".html?page="
                               ++ pathname (st_page st) ++ search (st_page st)
                               ++ "&from=" ++ referrer (st_page st))%string)])%list)
  /\ (forall n, status_code = VNum n ->
        loose_eq status_code VNull || loose_eq status_code (VNum 200)
        = (n =? 200)%Z)
  /\ (status_code = VNull \/ status_code = VUndef ->
        loose_eq status_code VNull || loose_eq status_code (VNum 200) = true).
Proof.
  intros Hg _ status_code t. split; [|split].
  - unfold init_analytics. rewrite Hg. simpl negb. cbv iota.
    rewrite debug_add. simpl st_gat. rewrite Hg.
    fold status_code. fold t.
    destruct (loose_eq status_code VNull || loose_eq status_code (VNum 200)).
    + eexists. split; [reflexivity|]. split; [reflexivity|].
      simpl. rewrite !filter_app_calls, filter_debug_calls by done.
      simpl. by rewrite !app_nil_r.
    + rewrite debug_add.
      eexists. split; [reflexivity|]. split; [reflexivity|].
      simpl. rewrite !filter_app_calls, !filter_debug_calls by done.
      simpl. by rewrite !app_nil_r.
  - intros n ->. reflexivity.
  - intros [-> | ->]; reflexivity.
Qed.

Lemma pageview_dichotomy_witness :
  st_gat sample_state = GatLoaded
  /\ exact_value (get (job_settings (sample_job (VNum 404))) "status_code") = true
  /\ exists st',
       init_analytics (sample_job (VNum 404)) sample_state = Done st'
       /\ pageTracker st' = Some sample_tracker
       /\ List.filter is_pageview (st_trace st')
          = [CTrackPageview sample_tracker
               (Some "/404.html?page=/foo?x=1&from=https://ref.example")].
Proof.
  split; [reflexivity|]. split; [reflexivity|].
  exact (proj1 (pageview_dichotomy (sample_job (VNum 404)) sample_state
                  eq_refl eq_refl)).
Defined.

(** The whole path on the sample page: [$.trackPage] with status code 404
    waits for the load-complete signal, then requests ga.js, and records
    the error pageview once the script has loaded. *)
Example trackPage_error_page :
  let st1 := trackPage (VStr "UA-1-1") (Some {[ "status_code" := VNum 404 ]})
               sample_state in
  st_trace st1 = []
  /\ st_trace (window_loaded st1)
     = [CGetScript "http://www.google-analytics.com/ga.js"]
  /\ exists st3,
       script_loaded (window_loaded st1) = Done st3
       /\ pageTracker st3 = Some sample_tracker
       /\ st_trace st3
          = [CGetScript "http://www.google-analytics.com/ga.js";
             CGetTracker (VStr "UA-1-1");
             CTrackPageview sample_tracker
               (Some "/404.html?page=/foo?x=1&from=https://ref.example")].
Proof.
  split; [reflexivity|]. split; [reflexivity|].
  eexists. split; [reflexivity|]. split; reflexivity.
Qed.

(** *** Events *)

Lemma filter_callbacks_of (v : value) (id : nat) :
  List.filter is_callback (callbacks_of v id) = callbacks_of v id.
Proof. by destruct v. Qed.

(** Running handlers never calls back into the settings. *)
Lemma run_handler_callbacks (h : handler) (st : state) :
  List.filter is_callback (st_trace (run_handler h st).2)
  = List.filter is_callback (st_trace st).
Proof.
  rewrite run_handler_add. cbn [snd]. simpl st_trace.
  rewrite filter_app_calls.
  destruct (truthy _ && loose_eq _ _).
  - rewrite filter_debug_calls by done. by rewrite app_nil_r.
  - simpl. rewrite filter_app_calls, (filter_debug_calls _ ("Tracked " ++ _)) by done.
    destruct (pageTracker st); simpl.
    + by rewrite app_nil_r.
    + rewrite filter_debug_calls by done. by rewrite app_nil_r.
Qed.

Lemma run_handlers_callbacks (hs : list handler) (st : state) :
  List.filter is_callback (st_trace (foldl (fun s h => (run_handler h s).2) st hs))
  = List.filter is_callback (st_trace st).
Proof.
  revert st. induction hs as [|h hs IH]; intros st; simpl; [done|].
  by rewrite IH, run_handler_callbacks.
Qed.

Lemma trigger_all_callbacks (fires : list (nat * string)) (st : state) :
  List.filter is_callback (st_trace (trigger_all fires st))
  = List.filter is_callback (st_trace st).
Proof.
  revert st. induction fires as [|[id type] fires IH]; intros st; [done|].
  unfold trigger_all in *. simpl. rewrite IH.
  apply run_handlers_callbacks.
Qed.

(** C7: for an unmarked element, [track_element] calls each of
    [category], [action], [label], [value] and [event_name] that is a
    function once, in that order, with the element; the handler it binds
    holds the results (the literal where the setting is no function) and
    is bound under the resolved event name; and triggering events any
    number of times afterwards calls none of them again. *)
Theorem settings_evaluated_once_at_attach (options : option (gmap string value))
    (id : nat) (st : state) (fires : list (nat * string)) :
  hasClass "tracked" (element_of st id) = false ->
  let settings := extend ∅ [Some (defaults st); options] in
  let n := el_node (addClass "tracked" (element_of st id)) in
  let st' := (track_element options id st).2 in
  List.filter is_callback (st_trace st')
  = (List.filter is_callback (st_trace st)
     ++ callbacks_of (get settings "category") id
     ++ callbacks_of (get settings "action") id
     ++ callbacks_of (get settings "label") id
     ++ callbacks_of (get settings "value") id
     ++ callbacks_of (get settings "event_name") id)%list
  /\ (exists b,
        el_events (element_of st' id) = (el_events (element_of st id) ++ [b])%list
        /\ b_type b
           = to_string (resolved (st_page st) n (get settings "event_name"))
             ++ ".track"
        /\ h_category (b_handler b) = resolved (st_page st) n (get settings "category")
        /\ h_action (b_handler b) = resolved (st_page st) n (get settings "action")
        /\ h_label (b_handler b) = resolved (st_page st) n (get settings "label")
        /\ h_value (b_handler b) = resolved (st_page st) n (get settings "value"))
  /\ List.filter is_callback (st_trace (trigger_all fires st'))
     = List.filter is_callback (st_trace st').
Proof.
  intros Hm settings n st'. split; [|split].
  - unfold st'. rewrite track_element_unmarked by done.
    cbn [snd]. simpl st_trace. fold settings.
    rewrite !filter_app_calls, !filter_callbacks_of.
    rewrite filter_debug_calls by done. simpl.
    by rewrite !app_nil_r.
  - eexists. unfold st'. rewrite track_element_self by done.
    cbn [el_events]. split; [reflexivity|]. repeat split.
  - apply trigger_all_callbacks.
Qed.

Lemma settings_evaluated_once_at_attach_witness :
  hasClass "tracked" (element_of sample_state 2) = false
  /\ List.filter is_callback
       (st_trace
          (trigger_all [(2, "click.track"); (2, "click.track"); (2, "click.track")]
             (track_element
                (Some {[ "label" := VFun "my_label" (fun _ _ => VStr "banner") ]})
                2 sample_state).2))
     = [CCallback "category" 2; CCallback "my_label" 2].
Proof.
  split; [reflexivity|].
  pose proof (settings_evaluated_once_at_attach
                (Some {[ "label" := VFun "my_label" (fun _ _ => VStr "banner") ]})
                2 sample_state
                [(2, "click.track"); (2, "click.track"); (2, "click.track")]
                eq_refl) as [H1 [_ H3]].
  exact (eq_trans H3 H1).
Defined.

(** *** Deferred loading *)







(** *** The [debug] option of a call *)

Lemma same_settings_merged (d : gmap string value)
    (o1 o2 : option (gmap string value)) :
  (forall k, k <> "debug" -> option_get o1 k = option_get o2 k) ->
  same_settings (extend ∅ [Some d; o1]) (extend ∅ [Some d; o2]).
Proof.
  intros H k Hk. rewrite !get_merged. by rewrite (H k Hk).
Qed.

Lemma el_node_addClass_same (c : string) (e1 e2 : element) :
  el_node e1 = el_node e2 ->
  el_node (addClass c e1) = el_node (addClass c e2).
Proof.
  intros H. unfold addClass, hasClass. rewrite H.
  destruct (existsb _ _); simpl; done.
Qed.

Lemma same_element_refl (el : element) : same_element el el.
Proof.
  split; [done|]. induction (el_events el) as [|b bs IH]; constructor; [|done].
  repeat split; done.
Qed.

Lemma same_state_refl (st : state) : same_state st st.
Proof. repeat split; try done; apply same_element_refl. Qed.

Lemma same_state_add_calls (cs : list call) (s1 s2 : state) :
  same_state s1 s2 -> same_state (add_calls cs s1) (add_calls cs s2).
Proof.
  intros (Hp & Hc & Hg & Hd & Ht & Hw & Hs & Htr & Hel).
  repeat split; simpl; try done; try apply Hel. by rewrite Htr.
Qed.

Lemma same_state_debug_enabled (s1 s2 : state) :
  same_state s1 s2 -> debug_enabled s1 = debug_enabled s2.
Proof.
  intros (Hp & Hc & Hg & Hd & _). unfold debug_enabled. by rewrite Hc, Hd.
Qed.

Lemma same_state_debug_calls (m : string) (s1 s2 : state) :
  same_state s1 s2 -> debug_calls m s1 = debug_calls m s2.
Proof.
  intros H. unfold debug_calls. by rewrite (same_state_debug_enabled s1 s2 H).
Qed.

Section SameOptions.

Variables o1 o2 : option (gmap string value).
Hypothesis Hopt : forall k, k <> "debug" -> option_get o1 k = option_get o2 k.

Lemma attached_handler_same (id : nat) (s1 s2 : state) :
  same_state s1 s2 ->
  same_handler (attached_handler o1 id s1) (attached_handler o2 id s2)
  /\ attached_type o1 id s1 = attached_type o2 id s2.
Proof using Hopt.
  intros (Hp & Hc & Hg & Hd & Ht & Hw & Hs & Htr & Hel).
  destruct (Hel id) as [Hn _].
  pose proof (el_node_addClass_same "tracked" _ _ Hn) as Hn'.
  pose proof (same_settings_merged (defaults s2) o1 o2 Hopt) as Hset.
  unfold attached_handler, attached_type, same_handler.
  cbn [h_element h_settings h_category h_action h_label h_value h_message].
  rewrite Hp, Hd, Hn'.
  rewrite (Hset "category"), (Hset "action"), (Hset "label"), (Hset "value"),
    (Hset "event_name") by done.
  repeat split; done.
Qed.

Lemma track_element_same (id : nat) (s1 s2 : state) :
  same_state s1 s2 ->
  (track_element o1 id s1).1 = (track_element o2 id s2).1
  /\ same_state (track_element o1 id s1).2 (track_element o2 id s2).2.
Proof using Hopt.
  intros Hsame.
  pose proof Hsame as (Hp & Hc & Hg & Hd & Ht & Hw & Hs & Htr & Hel).
  destruct (Hel id) as [Hn Hev].
  assert (Hcls : hasClass "tracked" (element_of s1 id)
                 = hasClass "tracked" (element_of s2 id)).
  { unfold hasClass. by rewrite Hn. }
  destruct (hasClass "tracked" (element_of s2 id)) eqn:Hm.
  - rewrite !track_element_marked by done. done.
  - rewrite !track_element_unmarked by done. cbn [fst snd].
    split; [done|].
    destruct (attached_handler_same id s1 s2 Hsame) as [Hh Hty].
    pose proof (same_settings_merged (defaults s2) o1 o2 Hopt) as Hset.
    pose proof (el_node_addClass_same "tracked" _ _ Hn) as Hn'.
    assert (Hmsg : h_message (attached_handler o1 id s1)
                   = h_message (attached_handler o2 id s2)) by apply Hh.
    split; [done|]. split; [done|]. split; [done|]. split; [done|].
    split; [done|]. split; [done|]. split; [done|]. split.
    + cbn [st_trace set_dom add_calls].
      rewrite Htr, Hp, Hd, Hn', Hty, Hmsg.
      rewrite (Hset "category"), (Hset "action"), (Hset "label"),
        (Hset "value"), (Hset "event_name") by done.
      by rewrite (same_state_debug_calls _ s1 s2 Hsame).
    + intros j. destruct (decide (id = j)) as [<-|Hne].
      * rewrite !element_of_set_dom_add. split; [exact Hn'|].
        cbn [el_events]. apply Forall2_app; [exact Hev|].
        constructor; [|constructor]. split; done.
      * rewrite !element_of_set_dom_ne by done. apply (Hel j).
Qed.

Lemma each_same (ids : list nat) (s1 s2 : state) :
  same_state s1 s2 ->
  same_state (each (track_element o1) ids s1) (each (track_element o2) ids s2).
Proof using Hopt.
  revert s1 s2. induction ids as [|id ids IH]; intros s1 s2 H; simpl; [done|].
  destruct (track_element_same id s1 s2 H) as [Hr Hst].
  destruct (track_element o1 id s1) as [r1 s1'].
  destruct (track_element o2 id s2) as [r2 s2']. simpl in Hr, Hst. subst r2.
  destruct (is_false r1); auto.
Qed.

End SameOptions.

Lemma run_handler_same (h1 h2 : handler) (s1 s2 : state) :
  same_handler h1 h2 -> same_state s1 s2 ->
  same_state (run_handler h1 s1).2 (run_handler h2 s2).2.
Proof.
  intros (He & Hset & Hc & Ha & Hl & Hv & Hm) Hsame.
  pose proof Hsame as (Hp & Hco & Hg & Hd & Ht & Hw & Hs & Htr & Hel).
  rewrite !run_handler_add. cbn [snd].
  rewrite (Hset "skip_internal") by done.
  rewrite He, Hc, Ha, Hl, Hv, Hm, Hp, Ht.
  destruct (Hel (h_element h2)) as [-> _].
  rewrite !(same_state_debug_calls _ s1 s2 Hsame).
  by apply same_state_add_calls.
Qed.

Lemma run_handlers_same (hs1 hs2 : list handler) (s1 s2 : state) :
  Forall2 same_handler hs1 hs2 -> same_state s1 s2 ->
  same_state (foldl (fun s h => (run_handler h s).2) s1 hs1)
             (foldl (fun s h => (run_handler h s).2) s2 hs2).
Proof.
  intros H. revert s1 s2.
  induction H as [|h1 h2 hs1 hs2 Hh _ IH]; intros s1 s2 Hs; simpl; [done|].
  apply IH. by apply run_handler_same.
Qed.

Lemma handlers_of_same (type : string) (e1 e2 : element) :
  same_element e1 e2 ->
  Forall2 same_handler (handlers_of type e1) (handlers_of type e2).
Proof.
  intros [_ H]. unfold handlers_of.
  induction H as [|b1 b2 l1 l2 [Hty Hh] _ IH]; [constructor|].
  rewrite !filter_cons, Hty.
  destruct (decide (String.eqb (b_type b2) type = true)); simpl; [|done].
  by constructor.
Qed.

Lemma trigger_same (id : nat) (type : string) (s1 s2 : state) :
  same_state s1 s2 -> same_state (trigger id type s1) (trigger id type s2).
Proof.
  intros H. unfold trigger. apply run_handlers_same; [|done].
  apply handlers_of_same. apply H.
Qed.

Lemma trigger_all_same (fires : list (nat * string)) (s1 s2 : state) :
  same_state s1 s2 -> same_state (trigger_all fires s1) (trigger_all fires s2).
Proof.
  revert s1 s2. induction fires as [|[id type] fires IH]; intros s1 s2 H; [done|].
  unfold trigger_all in *. simpl. apply IH. by apply trigger_same.
Qed.

(** While logging is off, nothing reaches the console. *)
Lemma console_output_add_calls (cs : list call) (st : state) :
  console_output (add_calls cs st)
  = (console_output st ++ omap console_message cs)%list.
Proof. unfold console_output. simpl. apply omap_app. Qed.

Lemma console_callbacks_of (v : value) (id : nat) :
  omap console_message (callbacks_of v id) = [].
Proof. by destruct v. Qed.

Lemma debug_calls_disabled (m : string) (st : state) :
  debug_enabled st = false -> debug_calls m st = [].
Proof. intros H. unfold debug_calls. by rewrite H. Qed.

Lemma track_element_quiet (options : option (gmap string value)) (id : nat)
    (st : state) :
  debug_enabled st = false ->
  debug_enabled (track_element options id st).2 = false
  /\ console_output (track_element options id st).2 = console_output st.
Proof.
  intros H. destruct (hasClass "tracked" (element_of st id)) eqn:Hm.
  - by rewrite track_element_marked.
  - rewrite track_element_unmarked by done. cbn [snd]. split; [exact H|].
    rewrite debug_calls_disabled by done.
    unfold console_output. cbn [st_trace set_dom add_calls].
    rewrite !omap_app, !console_callbacks_of. simpl. by rewrite app_nil_r.
Qed.

Lemma each_quiet (options : option (gmap string value)) (ids : list nat)
    (st : state) :
  debug_enabled st = false ->
  debug_enabled (each (track_element options) ids st) = false
  /\ console_output (each (track_element options) ids st) = console_output st.
Proof.
  revert st. induction ids as [|id ids IH]; intros st H; simpl; [done|].
  destruct (track_element_quiet options id st H) as [Hd Hc].
  destruct (track_element options id st) as [r st']. simpl in Hd, Hc.
  destruct (is_false r); [done|].
  destruct (IH st' Hd) as [Hd' Hc']. by rewrite Hc', Hc.
Qed.

Lemma run_handler_quiet (h : handler) (st : state) :
  debug_enabled st = false ->
  debug_enabled (run_handler h st).2 = false
  /\ console_output (run_handler h st).2 = console_output st.
Proof.
  intros H. rewrite run_handler_add. cbn [snd]. split; [exact H|].
  rewrite console_output_add_calls, !debug_calls_disabled by done.
  destruct (truthy _ && loose_eq _ _); simpl.
  - by rewrite app_nil_r.
  - destruct (pageTracker st); simpl; by rewrite app_nil_r.
Qed.

Lemma run_handlers_quiet (hs : list handler) (st : state) :
  debug_enabled st = false ->
  debug_enabled (foldl (fun s h => (run_handler h s).2) st hs) = false
  /\ console_output (foldl (fun s h => (run_handler h s).2) st hs)
     = console_output st.
Proof.
  revert st. induction hs as [|h hs IH]; intros st H; simpl; [done|].
  destruct (run_handler_quiet h st H) as [Hd Hc].
  destruct (IH _ Hd) as [Hd' Hc']. by rewrite Hc', Hc.
Qed.

Lemma trigger_all_quiet (fires : list (nat * string)) (st : state) :
  debug_enabled st = false ->
  console_output (trigger_all fires st) = console_output st.
Proof.
  revert st. induction fires as [|[id type] fires IH]; intros st H; [done|].
  unfold trigger_all in *. simpl.
  destruct (run_handlers_quiet (handlers_of type (element_of st id)) st H)
    as [Hd Hc].
  unfold trigger. by rewrite IH, Hc.
Qed.

(** C10: two calls of [$.fn.track] on the same elements in the same state,
    with options that differ at most in [debug], leave the same trace of
    calls, console included, also after any events are triggered; and
    while [$.fn.track.defaults.debug] (or the console) keeps logging off,
    nothing is printed whatever the options say. *)
Theorem debug_option_is_inert (ids : list nat)
    (o1 o2 : option (gmap string value)) (st : state)
    (fires : list (nat * string)) :
  (forall k, k <> "debug" -> option_get o1 k = option_get o2 k) ->
  st_trace (trigger_all fires (track ids o1 st).2)
  = st_trace (trigger_all fires (track ids o2 st).2)
  /\ console_output (trigger_all fires (track ids o1 st).2)
     = console_output (trigger_all fires (track ids o2 st).2)
  /\ (debug_enabled st = false ->
      console_output (trigger_all fires (track ids o1 st).2) = console_output st).
Proof.
  intros Hopt.
  assert (Hsame : same_state (trigger_all fires (track ids o1 st).2)
                             (trigger_all fires (track ids o2 st).2)).
  { apply trigger_all_same. unfold track. cbn [snd].
    apply each_same; [exact Hopt|]. apply same_state_refl. }
  assert (Htr : st_trace (trigger_all fires (track ids o1 st).2)
                = st_trace (trigger_all fires (track ids o2 st).2)) by apply Hsame.
  split; [exact Htr|]. split.
  - unfold console_output. by rewrite Htr.
  - intros Hd. unfold track. cbn [snd].
    destruct (each_quiet o1 ids st Hd) as [Hd' Hc].
    by rewrite trigger_all_quiet, Hc.
Qed.

Lemma debug_option_is_inert_witness :
  (forall k, k <> "debug" ->
     option_get (Some {[ "debug" := VBool true ]}) k = option_get None k)
  /\ debug_enabled sample_state = false
  /\ console_output
       (trigger_all [(2, "click.track"); (3, "click.track")]
          (track [2; 3] (Some {[ "debug" := VBool true ]}) sample_state).2)
     = [].
Proof.
  assert (H : forall k, k <> "debug" ->
                option_get (Some {[ "debug" := VBool true ]}) k = option_get None k).
  { intros k Hk. unfold option_get, get. by rewrite lookup_singleton_ne. }
  split; [exact H|]. split; [reflexivity|].
  exact (proj2 (proj2 (debug_option_is_inert [2; 3]
                         (Some {[ "debug" := VBool true ]}) None sample_state
                         [(2, "click.track"); (3, "click.track")] H))
           eq_refl).
Defined.

(** *** Outcomes on the console *)

Lemma debug_enabled_iff (st : state) :
  debug_enabled st = true <-> logging_on st.
Proof.
  unfold debug_enabled, logging_on.
  destruct (st_console st); simpl; split; try discriminate;
    try (intros [? _]; discriminate); try (intros [_ H]; exact H).
  intros H. split; [reflexivity|exact H].
Qed.

Lemma debug_calls_on (m : string) (st : state) :
  logging_on st -> debug_calls m st = [CConsoleDebug m].
Proof.
  intros H. apply debug_enabled_iff in H. unfold debug_calls. by rewrite H.
Qed.

Lemma debug_calls_off (m : string) (st : state) :
  ~ logging_on st -> debug_calls m st = [].
Proof.
  intros H. apply debug_calls_disabled.
  destruct (debug_enabled st) eqn:E; [|done].
  exfalso. apply H. by apply debug_enabled_iff.
Qed.

(** C4: [$.trackEvent] always returns.  While [pageTracker] is undefined
    it records nothing with Google Analytics and passes the diagnostic to
    [debug]: the console prints it when [console.debug] exists and
    [$.fn.track.defaults.debug] is truthy, and prints nothing otherwise.
    Once [pageTracker] holds a handle, the handle's [_trackEvent] is
    called once, with the four arguments as they were given. *)
Theorem trackEvent_soft_unavailability (category action label val : value)
    (st : state) :
  (pageTracker st = None ->
     trackEvent category action label val st
     = debug "FATAL ERROR: pageTracker is not defined"
         (record_call (CTrackEvent category action label val) st)
     /\ List.filter is_record (st_trace (trackEvent category action label val st))
        = List.filter is_record (st_trace st)
     /\ (logging_on st ->
         console_output (trackEvent category action label val st)
         = (console_output st ++ ["FATAL ERROR: pageTracker is not defined"])%list)
     /\ (~ logging_on st ->
         console_output (trackEvent category action label val st)
         = console_output st))
  /\ (forall t, pageTracker st = Some t ->
        trackEvent category action label val st
        = add_calls [CTrackEvent category action label val;
                     CRecordEvent t category action label val] st).
Proof.
  split.
  - intros Hp. split; [|split; [|split]].
    + unfold trackEvent. simpl pageTracker. rewrite Hp. reflexivity.
    + rewrite trackEvent_add, Hp. simpl.
      rewrite filter_app_calls. simpl.
      rewrite filter_debug_calls by done. by rewrite app_nil_r.
    + intros Hon. rewrite trackEvent_add, Hp, console_output_add_calls.
      by rewrite debug_calls_on.
    + intros Hoff. rewrite trackEvent_add, Hp, console_output_add_calls.
      rewrite debug_calls_off by done. simpl. by rewrite app_nil_r.
  - intros t Hp. rewrite trackEvent_add, Hp. reflexivity.
Qed.

Lemma trackEvent_soft_unavailability_witness :
  pageTracker verbose_state = None
  /\ logging_on verbose_state
  /\ List.filter is_record
       (st_trace (trackEvent (VStr "external") (VStr "click")
                    (VStr "http://other.example/") VNull verbose_state))
     = []
  /\ console_output (trackEvent (VStr "external") (VStr "click")
                       (VStr "http://other.example/") VNull verbose_state)
     = ["FATAL ERROR: pageTracker is not defined"]
  /\ ~ logging_on sample_state
  /\ console_output (trackEvent (VStr "external") (VStr "click")
                       (VStr "http://other.example/") VNull sample_state)
     = []
  /\ pageTracker (set_pageTracker sample_tracker sample_state) = Some sample_tracker
  /\ st_trace (trackEvent (VStr "external") (VStr "click")
                 (VStr "http://other.example/") VNull
                 (set_pageTracker sample_tracker sample_state))
     = [CTrackEvent (VStr "external") (VStr "click")
          (VStr "http://other.example/") VNull;
        CRecordEvent sample_tracker (VStr "external") (VStr "click")
          (VStr "http://other.example/") VNull].
Proof.
  assert (Hon : logging_on verbose_state) by (split; reflexivity).
  assert (Hoff : ~ logging_on sample_state).
  { intros [_ H]. vm_compute in H. discriminate H. }
  split; [reflexivity|]. split; [exact Hon|]. split.
  { exact (proj1 (proj2 (proj1 (trackEvent_soft_unavailability (VStr "external")
                                  (VStr "click") (VStr "http://other.example/")
                                  VNull verbose_state) eq_refl))). }
  split.
  { exact (proj1 (proj2 (proj2 (proj1 (trackEvent_soft_unavailability
                                         (VStr "external") (VStr "click")
                                         (VStr "http://other.example/") VNull
                                         verbose_state) eq_refl))) Hon). }
  split; [exact Hoff|]. split.
  { exact (proj2 (proj2 (proj2 (proj1 (trackEvent_soft_unavailability
                                         (VStr "external") (VStr "click")
                                         (VStr "http://other.example/") VNull
                                         sample_state) eq_refl))) Hoff). }
  split; [reflexivity|].
  exact (f_equal st_trace
           (proj2 (trackEvent_soft_unavailability (VStr "external")
                     (VStr "click") (VStr "http://other.example/") VNull
                     (set_pageTracker sample_tracker sample_state))
              sample_tracker eq_refl)).
Defined.

(** C6: for an unmarked element, [track_element] binds a handler that
    holds the tuple resolved then.  Whenever that handler runs, it returns
    [true]; [skip] is truthy exactly when the merged [skip_internal] is
    truthy and the element's host [==] the page's host.  If so,
    [$.trackEvent] is not called and "Skipped ..." is passed to [debug];
    if not, [$.trackEvent] is called once, with the resolved tuple, and
    then "Tracked ..." is passed to [debug].  In both cases the console
    prints the line when [console.debug] exists and
    [$.fn.track.defaults.debug] is truthy (after the diagnostic of
    [$.trackEvent] while [pageTracker] is undefined), and nothing
    otherwise. *)
Theorem skip_internal_policy (options : option (gmap string value)) (id : nat)
    (st0 st : state) :
  hasClass "tracked" (element_of st0 id) = false ->
  let settings := extend ∅ [Some (defaults st0); options] in
  let n := el_node (addClass "tracked" (element_of st0 id)) in
  let category := resolved (st_page st0) n (get settings "category") in
  let action := resolved (st_page st0) n (get settings "action") in
  let label := resolved (st_page st0) n (get settings "label") in
  let val := resolved (st_page st0) n (get settings "value") in
  let message := message_of category action label val in
  let skip :=
    truthy (get settings "skip_internal")
    && loose_eq (of_option (node_hostname (el_node (element_of st id))))
                (VStr (hostname (st_page st))) in
  exists type h,
    el_events (element_of (track_element options id st0).2 id)
    = (el_events (element_of st0 id) ++ [{| b_type := type; b_handler := h |}])%list
    /\ (run_handler h st).1 = VBool true
    /\ (skip = true ->
        (run_handler h st).2 = debug ("Skipped " ++ message) st
        /\ List.filter is_track_event (st_trace (run_handler h st).2)
           = List.filter is_track_event (st_trace st)
        /\ (logging_on st ->
            console_output (run_handler h st).2
            = (console_output st ++ [("Skipped " ++ message)%string])%list))
    /\ (skip = false ->
        (run_handler h st).2
        = debug ("Tracked " ++ message) (trackEvent category action label val st)
        /\ List.filter is_track_event (st_trace (run_handler h st).2)
           = (List.filter is_track_event (st_trace st)
              ++ [CTrackEvent category action label val])%list
        /\ (logging_on st ->
            console_output (run_handler h st).2
            = (console_output st
               ++ match pageTracker st with
                  | Some _ => []
                  | None => ["FATAL ERROR: pageTracker is not defined"]
                  end
               ++ [("Tracked " ++ message)%string])%list))
    /\ (~ logging_on st ->
        console_output (run_handler h st).2 = console_output st).
Proof.
  intros Hm settings n category action label val message skip.
  exists (attached_type options id st0), (attached_handler options id st0).
  split; [by rewrite track_element_self|].
  split; [by rewrite run_handler_add|].
  assert (Hskip : truthy (js_and (get (h_settings (attached_handler options id st0))
                                     "skip_internal")
                     (VBool (loose_eq
                        (of_option (node_hostname (el_node
                           (element_of st (h_element (attached_handler options id st0))))))
                        (VStr (hostname (st_page st)))))) = skip).
  { by rewrite skip_truthy. }
  split; [|split].
  - intros Hs. split; [|split].
    + unfold run_handler. rewrite Hskip, Hs. reflexivity.
    + rewrite run_handler_add. cbn [snd h_settings h_element attached_handler].
      fold settings. fold skip. rewrite Hs. simpl.
      rewrite filter_app_calls, filter_debug_calls by done.
      by rewrite app_nil_r.
    + intros Hon. rewrite run_handler_add.
      cbn [snd h_settings h_element h_message attached_handler].
      fold settings. fold skip. rewrite Hs.
      rewrite console_output_add_calls, debug_calls_on by done. reflexivity.
  - intros Hs. split; [|split].
    + unfold run_handler. rewrite Hskip, Hs. reflexivity.
    + rewrite run_handler_add.
      cbn [snd h_settings h_element h_category h_action h_label h_value
           attached_handler].
      fold settings. fold skip. rewrite Hs. simpl.
      rewrite filter_app_calls. simpl. f_equal. f_equal.
      rewrite filter_app_calls, filter_debug_calls by done.
      destruct (pageTracker st); simpl; [done|].
      by rewrite filter_debug_calls.
    + intros Hon. rewrite run_handler_add.
      cbn [snd h_settings h_element h_category h_action h_label h_value
           h_message attached_handler].
      fold settings. fold skip. rewrite Hs.
      rewrite console_output_add_calls, !debug_calls_on by done.
      by destruct (pageTracker st).
  - intros Hoff. rewrite run_handler_add. cbn [snd].
    rewrite console_output_add_calls, !debug_calls_off by done.
    destruct (truthy _ && loose_eq _ _); simpl; [by rewrite app_nil_r|].
    destruct (pageTracker st); simpl; by rewrite app_nil_r.
Qed.

Lemma skip_internal_policy_witness :
  hasClass "tracked" (element_of verbose_state 3) = false
  /\ hasClass "tracked" (element_of verbose_state 2) = false
  /\ logging_on verbose_state
  /\ (exists type h,
        el_events (element_of (track_element None 3 verbose_state).2 3)
        = [{| b_type := type; b_handler := h |}]
        /\ List.filter is_track_event (st_trace (run_handler h verbose_state).2)
           = []
        /\ console_output (run_handler h verbose_state).2
           = ["Skipped category:'internal' action:'click' label:'http://example.org/' value:'null'"])
  /\ (exists type h,
        el_events (element_of (track_element None 2 verbose_state).2 2)
        = [{| b_type := type; b_handler := h |}]
        /\ List.filter is_track_event (st_trace (run_handler h verbose_state).2)
           = [CTrackEvent (VStr "external") (VStr "click")
                (VStr "http://other.example/") VNull]
        /\ console_output (run_handler h verbose_state).2
           = ["FATAL ERROR: pageTracker is not defined";
              "Tracked category:'external' action:'click' label:'http://other.example/' value:'null'"]).
Proof.
  assert (Hon : logging_on verbose_state) by (split; reflexivity).
  split; [reflexivity|]. split; [reflexivity|]. split; [exact Hon|]. split.
  - destruct (skip_internal_policy None 3 verbose_state verbose_state eq_refl)
      as (type & h & He & _ & Hs & _ & _).
    destruct (Hs eq_refl) as (_ & Hf & Hc).
    exists type, h. split; [exact He|]. split; [exact Hf|exact (Hc Hon)].
  - destruct (skip_internal_policy None 2 verbose_state verbose_state eq_refl)
      as (type & h & He & _ & _ & Hr & _).
    destruct (Hr eq_refl) as (_ & Hf & Hc).
    exists type, h. split; [exact He|]. split; [exact Hf|exact (Hc Hon)].
Defined.

(** ** Further properties of the plugin *)

(** *** What [$.fn.track] leaves alone *)

Lemma same_globals_refl (st : state) : same_globals st st.
Proof. repeat split. Qed.

Lemma same_globals_trans (s1 s2 s3 : state) :
  same_globals s1 s2 -> same_globals s2 s3 -> same_globals s1 s3.
Proof.
  intros (H1 & H2 & H3 & H4 & H5 & H6 & H7) (K1 & K2 & K3 & K4 & K5 & K6 & K7).
  repeat split; congruence.
Qed.

Lemma filter_analytics_callbacks_of (v : value) (id : nat) :
  List.filter is_analytics (callbacks_of v id) = [].
Proof. by destruct v. Qed.

Lemma track_element_frame (options : option (gmap string value)) (id : nat)
    (st : state) :
  same_globals st (track_element options id st).2
  /\ List.filter is_analytics (st_trace (track_element options id st).2)
     = List.filter is_analytics (st_trace st).
Proof.
  destruct (hasClass "tracked" (element_of st id)) eqn:Hm.
  - rewrite track_element_marked by done. split; [apply same_globals_refl|done].
  - rewrite track_element_unmarked by done. cbn [snd].
    split; [repeat split|].
    cbn [st_trace set_dom add_calls].
    rewrite !filter_app_calls, !filter_analytics_callbacks_of.
    rewrite filter_debug_calls by done. simpl. by rewrite app_nil_r.
Qed.

Lemma each_frame (options : option (gmap string value)) (ids : list nat)
    (st : state) :
  same_globals st (each (track_element options) ids st)
  /\ List.filter is_analytics (st_trace (each (track_element options) ids st))
     = List.filter is_analytics (st_trace st).
Proof.
  revert st. induction ids as [|id ids IH]; intros st; simpl.
  - split; [apply same_globals_refl|done].
  - destruct (track_element_frame options id st) as [Hg Ht].
    destruct (track_element options id st) as [r st']. simpl in Hg, Ht.
    destruct (is_false r); [done|].
    destruct (IH st') as [Hg' Ht']. split.
    + by apply (same_globals_trans st st').
    + by rewrite Ht', Ht.
Qed.

(** X1: a call of [$.fn.track] changes only elements and the trace: the
    page, the console, [_gat], [$.fn.track.defaults], [pageTracker] and the
    pending load callbacks stay as they were, and the call sends nothing to
    Google Analytics and does not enter [$.trackEvent]. *)
Theorem track_sends_nothing (ids : list nat)
    (options : option (gmap string value)) (st : state) :
  same_globals st (track ids options st).2
  /\ List.filter is_analytics (st_trace (track ids options st).2)
     = List.filter is_analytics (st_trace st).
Proof. unfold track. cbn [snd]. apply each_frame. Qed.

Lemma track_element_keeps_marked (options : option (gmap string value))
    (j id : nat) (st : state) :
  hasClass "tracked" (element_of st id) = true ->
  element_of (track_element options j st).2 id = element_of st id.
Proof.
  intros H. destruct (decide (j = id)) as [->|Hne].
  - by rewrite track_element_marked.
  - by apply track_element_other.
Qed.

Lemma each_other (options : option (gmap string value)) (ids : list nat)
    (st : state) (j : nat) :
  j ∉ ids ->
  element_of (each (track_element options) ids st) j = element_of st j.
Proof.
  revert st. induction ids as [|id ids IH]; intros st Hj; simpl; [done|].
  apply not_elem_of_cons in Hj as [Hne Hj].
  pose proof (track_element_other options id j st (not_eq_sym Hne)) as Ho.
  destruct (track_element options id st) as [r st']. simpl in Ho.
  destruct (is_false r); [done|].
  by rewrite IH.
Qed.

(** X2: elements that are not among those [$.fn.track] is called on are
    left exactly as they were. *)
Theorem track_leaves_other_elements (ids : list nat)
    (options : option (gmap string value)) (st : state) (j : nat) :
  j ∉ ids ->
  element_of (track ids options st).2 j = element_of st j.
Proof. unfold track. cbn [snd]. apply each_other. Qed.

Lemma track_leaves_other_elements_witness :
  (3 ∉ [2; 1])
  /\ element_of (track [2; 1] None sample_state).2 3 = element_of sample_state 3.
Proof.
  assert (H : 3 ∉ [2; 1]).
  { intros H. apply elem_of_cons in H as [H|H]; [discriminate|].
    apply elem_of_cons in H as [H|H]; [discriminate|].
    by apply elem_of_nil in H. }
  split; [exact H|].
  exact (track_leaves_other_elements [2; 1] None sample_state 3 H).
Defined.

Lemma listeners_events (el : element) :
  listeners el
  = flat_map (fun b => map (fun t => (t, b_handler b)) (bound_types (b_type b)))
      (el_events el).
Proof. reflexivity. Qed.

(** X3: in one call of [$.fn.track], whatever the elements (repeated or
    not) and the options, every element keeps its host, its link target
    and the calls of [bind] it had, in their order, hence its listeners;
    at most one further call of [bind] is made on it, and the listeners
    it gains are those of that call; its class list is the old one, or
    the old one followed by [tracked]. *)
Theorem track_only_appends (ids : list nat)
    (options : option (gmap string value)) (st : state) (j : nat) :
  let el := element_of st j in
  let el' := element_of (track ids options st).2 j in
  node_hostname (el_node el') = node_hostname (el_node el)
  /\ node_href (el_node el') = node_href (el_node el)
  /\ (node_class (el_node el') = node_class (el_node el)
      \/ node_class (el_node el') = (node_class (el_node el) ++ ["tracked"])%list)
  /\ (exists bs,
        el_events el' = (el_events el ++ bs)%list
        /\ length bs <= 1
        /\ listeners el'
           = (listeners el
              ++ flat_map (fun b => map (fun t => (t, b_handler b))
                                      (bound_types (b_type b))) bs)%list).
Proof.
  assert (Hl : forall (e e' : element) bs,
             el_events e' = (el_events e ++ bs)%list ->
             listeners e'
             = (listeners e
                ++ flat_map (fun b => map (fun t => (t, b_handler b))
                                        (bound_types (b_type b))) bs)%list).
  { intros e e' bs H. rewrite !listeners_events, H. apply flat_map_app. }
  unfold track. cbn [snd]. revert st.
  induction ids as [|id ids IH]; intros st; simpl.
  - repeat split; [by left|]. exists []. rewrite !app_nil_r. repeat split; auto.
  - destruct (hasClass "tracked" (element_of st j)) eqn:Hj.
    + pose proof (each_marked options (id :: ids) j st Hj) as He.
      simpl in He. rewrite He.
      repeat split; [by left|]. exists []. rewrite !app_nil_r. repeat split; auto.
    + destruct (decide (id = j)) as [->|Hne].
      * rewrite track_element_unmarked by done.
        cbn [is_false].
        rewrite each_marked.
        2:{ rewrite element_of_set_dom_add. unfold hasClass. cbn [el_node].
            apply (hasClass_addClass "tracked" (element_of st j)). }
        rewrite element_of_set_dom_add. cbn [el_node el_events].
        unfold addClass. rewrite Hj. cbn [el_node node_hostname node_href node_class].
        repeat split; [by right|].
        eexists. split; [reflexivity|]. split; [simpl; lia|].
        by apply Hl.
      * pose proof (track_element_other options id j st Hne) as Ho.
        destruct (track_element options id st) as [r st']. simpl in Ho.
        destruct (is_false r).
        -- rewrite Ho. repeat split; [by left|].
           exists []. rewrite !app_nil_r. repeat split; auto.
        -- specialize (IH st'). rewrite Ho in IH. exact IH.
Qed.

(** *** Elements that are all unmarked *)

(** What [track_element] builds depends on the state only through the
    page, the defaults and the element itself. *)
Lemma attached_same_inputs (options : option (gmap string value)) (id : nat)
    (s1 s2 : state) :
  same_globals s1 s2 ->
  element_of s2 id = element_of s1 id ->
  attached_handler options id s2 = attached_handler options id s1
  /\ attached_type options id s2 = attached_type options id s1
  /\ tracking_message options id s2 = tracking_message options id s1.
Proof.
  intros (Hp & _ & _ & Hd & _) He.
  unfold tracking_message, attached_handler, attached_type.
  by rewrite He, Hp, Hd.
Qed.

Lemma track_element_alone_same (options : option (gmap string value))
    (id : nat) (s1 s2 : state) :
  same_globals s1 s2 ->
  element_of s2 id = element_of s1 id ->
  element_of (track_element options id s2).2 id
  = element_of (track_element options id s1).2 id.
Proof.
  intros Hg He.
  destruct (hasClass "tracked" (element_of s1 id)) eqn:Hm.
  - rewrite !track_element_marked by (by rewrite ?He). done.
  - rewrite !track_element_self by (by rewrite ?He).
    destruct (attached_same_inputs options id s1 s2 Hg He) as (-> & -> & _).
    by rewrite He.
Qed.

Lemma each_singleton (options : option (gmap string value)) (id : nat)
    (st : state) :
  each (track_element options) [id] st = (track_element options id st).2.
Proof.
  simpl. destruct (track_element options id st) as [r st'].
  by destruct (is_false r).
Qed.

Lemma track_element_continues (options : option (gmap string value))
    (id : nat) (st : state) :
  hasClass "tracked" (element_of st id) = false ->
  is_false (track_element options id st).1 = false.
Proof. intros H. by rewrite track_element_unmarked. Qed.

(** X4: when none of the elements carries the mark and none is repeated,
    [$.fn.track] leaves each of them exactly as a call on that element
    alone would: marked, with exactly one more call of [bind], which
    attaches one listener per white-space separated token of its type. *)
Theorem track_unmarked_elements_independently (ids : list nat)
    (options : option (gmap string value)) (st : state) (id : nat) :
  Forall (fun i => hasClass "tracked" (element_of st i) = false) ids ->
  NoDup ids ->
  id ∈ ids ->
  element_of (track ids options st).2 id
  = element_of (track [id] options st).2 id
  /\ hasClass "tracked" (element_of (track ids options st).2 id) = true
  /\ exists b,
       el_events (element_of (track ids options st).2 id)
       = (el_events (element_of st id) ++ [b])%list
       /\ listeners (element_of (track ids options st).2 id)
          = (listeners (element_of st id)
             ++ map (fun t => (t, b_handler b)) (bound_types (b_type b)))%list.
Proof.
  intros Hall Hnd Hin.
  assert (Hm : hasClass "tracked" (element_of st id) = false).
  { rewrite Forall_forall in Hall. by apply Hall. }
  assert (Heq : element_of (track ids options st).2 id
                = element_of (track [id] options st).2 id).
  { unfold track. cbn [snd]. rewrite each_singleton.
    revert st Hall Hnd Hin Hm.
    induction ids as [|j ids IH]; intros st Hall Hnd Hin Hm.
    - by apply elem_of_nil in Hin.
    - apply Forall_cons in Hall as [Hj Hall].
      apply NoDup_cons in Hnd as [Hnj Hnd].
      simpl.
      pose proof (track_element_continues options j st Hj) as Hc.
      pose proof (track_element_frame options j st) as [Hg _].
      destruct (track_element options j st) as [r st'] eqn:E.
      simpl in Hc, Hg. rewrite Hc.
      apply elem_of_cons in Hin as [->|Hin].
      + rewrite each_other by done. by rewrite E.
      + assert (Hne : j <> id) by (intros ->; done).
        assert (Ho : forall i, j <> i -> element_of st' i = element_of st i).
        { intros i Hi. replace st' with (track_element options j st).2
            by (by rewrite E). by apply track_element_other. }
        rewrite IH; try done.
        * apply track_element_alone_same; [done|]. by apply Ho.
        * rewrite Forall_forall in Hall. apply Forall_forall. intros i Hi.
          rewrite Ho; [by apply Hall|]. intros ->. done.
        * by rewrite Ho. }
  split; [exact Heq|].
  rewrite Heq. unfold track. cbn [snd]. rewrite each_singleton.
  rewrite track_element_self by done. split.
  - unfold hasClass. cbn [el_node].
    apply (hasClass_addClass "tracked" (element_of st id)).
  - eexists. cbn [el_events]. split; [reflexivity|].
    rewrite !listeners_events. cbn [el_events].
    rewrite flat_map_app. simpl. by rewrite app_nil_r.
Qed.

Lemma track_unmarked_elements_independently_witness :
  Forall (fun i => hasClass "tracked" (element_of sample_state i) = false) [3; 2]
  /\ NoDup [3; 2]
  /\ (2 ∈ [3; 2])
  /\ element_of (track [3; 2] None sample_state).2 2
     = element_of (track [2] None sample_state).2 2.
Proof.
  assert (H1 : Forall (fun i => hasClass "tracked" (element_of sample_state i) = false)
                 [3; 2]).
  { repeat constructor. }
  assert (H2 : NoDup [3; 2]).
  { constructor; [|constructor; [apply not_elem_of_nil|constructor]].
    intros H. apply elem_of_cons in H as [H|H]; [discriminate|].
    by apply elem_of_nil in H. }
  assert (H3 : 2 ∈ [3; 2]) by (apply elem_of_cons; right; apply elem_of_cons; by left).
  split; [exact H1|]. split; [exact H2|]. split; [exact H3|].
  exact (proj1 (track_unmarked_elements_independently [3; 2] None sample_state 2
                  H1 H2 H3)).
Defined.

(** X5: an element that carries the mark ends the call: the elements that
    follow it in the sequence are not processed, so the call has the
    effect of a call on the elements before it. *)
Theorem track_ignores_elements_after_marked (pre rest : list nat) (id : nat)
    (options : option (gmap string value)) (st : state) :
  hasClass "tracked" (element_of st id) = true ->
  (track (pre ++ id :: rest) options st).2 = (track pre options st).2.
Proof.
  unfold track. cbn [snd]. revert st.
  induction pre as [|j pre IH]; intros st Hm.
  - by apply each_stops.
  - simpl.
    pose proof (track_element_keeps_marked options j id st Hm) as Hk.
    destruct (track_element options j st) as [r st']. simpl in Hk.
    destruct (is_false r); [done|].
    apply IH. by rewrite Hk.
Qed.

Lemma track_ignores_elements_after_marked_witness :
  hasClass "tracked" (element_of sample_state 1) = true
  /\ (track [2; 1; 3] None sample_state).2 = (track [2] None sample_state).2.
Proof.
  split; [reflexivity|].
  exact (track_ignores_elements_after_marked [2] [3] 1 None sample_state eq_refl).
Defined.

Lemma debug_enabled_same_globals (s1 s2 : state) :
  same_globals s1 s2 -> debug_enabled s2 = debug_enabled s1.
Proof. intros (_ & Hc & _ & Hd & _). unfold debug_enabled. by rewrite Hc, Hd. Qed.

Lemma track_element_console (options : option (gmap string value)) (id : nat)
    (st : state) :
  hasClass "tracked" (element_of st id) = false ->
  debug_enabled st = true ->
  console_output (track_element options id st).2
  = (console_output st ++ [tracking_message options id st])%list.
Proof.
  intros Hm Hd. rewrite track_element_unmarked by done. cbn [snd].
  unfold console_output. cbn [st_trace set_dom add_calls].
  unfold debug_calls. rewrite Hd.
  rewrite !omap_app, !console_callbacks_of. reflexivity.
Qed.

(** X6: with logging on, a call of [$.fn.track] on elements of which none
    carries the mark and none is repeated prints one line per element, in
    their order: the "Tracking ..." line of that element. *)
Theorem track_prints_one_line_per_element (ids : list nat)
    (options : option (gmap string value)) (st : state) :
  Forall (fun i => hasClass "tracked" (element_of st i) = false) ids ->
  NoDup ids ->
  debug_enabled st = true ->
  console_output (track ids options st).2
  = (console_output st ++ map (fun id => tracking_message options id st) ids)%list.
Proof.
  unfold track. cbn [snd]. revert st.
  induction ids as [|j ids IH]; intros st Hall Hnd Hd.
  - simpl. by rewrite app_nil_r.
  - apply Forall_cons in Hall as [Hj Hall].
    apply NoDup_cons in Hnd as [Hnj Hnd].
    simpl.
    pose proof (track_element_continues options j st Hj) as Hc.
    pose proof (track_element_frame options j st) as [Hg _].
    pose proof (track_element_console options j st Hj Hd) as Hcon.
    assert (Ho : forall i, j <> i ->
                   element_of (track_element options j st).2 i = element_of st i).
    { intros i Hi. by apply track_element_other. }
    destruct (track_element options j st) as [r st']. simpl in Hc, Hg, Hcon, Ho.
    rewrite Hc, IH, Hcon, <- app_assoc; try done.
    + simpl. do 2 f_equal. apply map_ext_in. intros i Hi.
      apply attached_same_inputs; [done|]. apply Ho. intros ->.
      apply Hnj. by apply list_elem_of_In.
    + rewrite Forall_forall in Hall. apply Forall_forall. intros i Hi.
      rewrite Ho; [by apply Hall|]. intros ->. done.
    + by rewrite (debug_enabled_same_globals st st').
Qed.

Lemma track_prints_one_line_per_element_witness :
  Forall (fun i => hasClass "tracked"
                     (element_of (set_default_debug (VBool true) sample_state) i)
                   = false) [3; 2]
  /\ NoDup [3; 2]
  /\ debug_enabled (set_default_debug (VBool true) sample_state) = true
  /\ console_output (track [3; 2] None (set_default_debug (VBool true) sample_state)).2
     = ["Tracking click category:'internal' action:'click' label:'http://example.org/' value:'null'";
        "Tracking click category:'external' action:'click' label:'http://other.example/' value:'null'"].
Proof.
  assert (H1 : Forall (fun i => hasClass "tracked"
                     (element_of (set_default_debug (VBool true) sample_state) i)
                   = false) [3; 2]).
  { repeat constructor. }
  assert (H2 : NoDup [3; 2]).
  { constructor; [|constructor; [apply not_elem_of_nil|constructor]].
    intros H. apply elem_of_cons in H as [H|H]; [discriminate|].
    by apply elem_of_nil in H. }
  split; [exact H1|]. split; [exact H2|]. split; [reflexivity|].
  exact (track_prints_one_line_per_element [3; 2] None
           (set_default_debug (VBool true) sample_state) H1 H2 eq_refl).
Defined.

(** *** The default settings *)

Lemma same_host_spec (p : page) (n : node) :
  same_host p n = true <-> node_hostname n = Some (hostname p).
Proof.
  unfold same_host. destruct (node_hostname n) as [h|]; simpl.
  - rewrite String.eqb_eq. split; [by intros ->|by intros [= ->]].
  - split; discriminate.
Qed.

Lemma default_settings (options : option (gmap string value)) (k : string) :
  option_get options k = VUndef ->
  get (extend ∅ [Some track_defaults; options]) k = get track_defaults k.
Proof. intros H. rewrite get_merged, H. reflexivity. Qed.

Lemma same_host_addClass (p : page) (c : string) (el : element) :
  same_host p (el_node (addClass c el)) = same_host p (el_node el).
Proof. unfold addClass. by destruct (hasClass c el). Qed.

Lemma node_href_addClass (c : string) (el : element) :
  node_href (el_node (addClass c el)) = node_href (el_node el).
Proof. unfold addClass. by destruct (hasClass c el). Qed.

(** X7: with [$.fn.track.defaults] untouched and no setting given by the
    caller, an unmarked element gets a handler bound under [click.track]
    whose category is [internal] when the element's host is the page's
    host and [external] otherwise (also when the element has no host),
    whose action is [click], whose label is the element's [href]
    attribute ([undefined] without one) and whose value is [null]. *)
Theorem default_settings_resolution (options : option (gmap string value))
    (id : nat) (st : state) :
  hasClass "tracked" (element_of st id) = false ->
  defaults st = track_defaults ->
  (forall k, option_get options k = VUndef) ->
  exists h,
    el_events (element_of (track_element options id st).2 id)
    = (el_events (element_of st id)
       ++ [{| b_type := "click.track"; b_handler := h |}])%list
    /\ h_category h
       = VStr (if same_host (st_page st) (el_node (element_of st id))
               then "internal" else "external")
    /\ h_action h = VStr "click"
    /\ h_label h = of_option (node_href (el_node (element_of st id)))
    /\ h_value h = VNull.
Proof.
  intros Hm Hd Ho. exists (attached_handler options id st).
  rewrite track_element_self by done.
  unfold attached_type, attached_handler.
  cbn [h_category h_action h_label h_value]. rewrite Hd.
  rewrite !default_settings by apply Ho.
  change (get track_defaults "event_name") with (VStr "click").
  change (get track_defaults "action") with (VStr "click").
  change (get track_defaults "value") with VNull.
  split; [reflexivity|]. split.
  - change (resolved (st_page st) (el_node (addClass "tracked" (element_of st id)))
              (get track_defaults "category"))
      with (if same_host (st_page st) (el_node (addClass "tracked" (element_of st id)))
            then VStr "internal" else VStr "external").
    rewrite same_host_addClass. by destruct (same_host _ _).
  - split; [reflexivity|]. split; [|reflexivity].
    change (resolved (st_page st) (el_node (addClass "tracked" (element_of st id)))
              (get track_defaults "label"))
      with (of_option (node_href (el_node (addClass "tracked" (element_of st id))))).
    by rewrite node_href_addClass.
Qed.

Lemma default_settings_resolution_witness :
  hasClass "tracked" (element_of sample_state 2) = false
  /\ defaults sample_state = track_defaults
  /\ (forall k, option_get None k = VUndef)
  /\ exists h,
       el_events (element_of (track_element None 2 sample_state).2 2)
       = [{| b_type := "click.track"; b_handler := h |}]
       /\ h_category h = VStr "external"
       /\ h_action h = VStr "click"
       /\ h_label h = VStr "http://other.example/"
       /\ h_value h = VNull.
Proof.
  split; [reflexivity|]. split; [reflexivity|]. split; [reflexivity|].
  exact (default_settings_resolution None 2 sample_state eq_refl eq_refl
           (fun k => eq_refl)).
Defined.

(** X8: with [$.fn.track.defaults] untouched and no setting given by the
    caller, the handler bound to an element calls [$.trackEvent] exactly
    when, at the time it runs, the element's host is not the page's host
    (so also when the element has no host), and then with the category
    resolved when it was bound.  So while the page's host and the
    element's host are what they were then, only events of category
    [external] are reported, and none of category [internal]. *)
Theorem default_settings_report_external_only
    (options : option (gmap string value)) (id : nat) (st s : state) :
  hasClass "tracked" (element_of st id) = false ->
  defaults st = track_defaults ->
  (forall k, option_get options k = VUndef) ->
  exists type h,
    el_events (element_of (track_element options id st).2 id)
    = (el_events (element_of st id) ++ [{| b_type := type; b_handler := h |}])%list
    /\ List.filter is_track_event (st_trace (run_handler h s).2)
       = (List.filter is_track_event (st_trace s)
          ++ if same_host (st_page s) (el_node (element_of s id)) then []
             else [CTrackEvent
                     (VStr (if same_host (st_page st) (el_node (element_of st id))
                            then "internal" else "external"))
                     (VStr "click")
                     (of_option (node_href (el_node (element_of st id)))) VNull])%list
    /\ (hostname (st_page s) = hostname (st_page st) ->
        node_hostname (el_node (element_of s id))
        = node_hostname (el_node (element_of st id)) ->
        List.filter is_track_event (st_trace (run_handler h s).2)
        = (List.filter is_track_event (st_trace s)
           ++ if same_host (st_page st) (el_node (element_of st id)) then []
              else [CTrackEvent (VStr "external") (VStr "click")
                      (of_option (node_href (el_node (element_of st id))))
                      VNull])%list).
Proof.
  intros Hm Hd Ho.
  exists (attached_type options id st), (attached_handler options id st).
  split; [by rewrite track_element_self|].
  assert (Hgen :
    List.filter is_track_event
      (st_trace (run_handler (attached_handler options id st) s).2)
    = (List.filter is_track_event (st_trace s)
       ++ if same_host (st_page s) (el_node (element_of s id)) then []
          else [CTrackEvent
                  (VStr (if same_host (st_page st) (el_node (element_of st id))
                         then "internal" else "external"))
                  (VStr "click")
                  (of_option (node_href (el_node (element_of st id)))) VNull])%list).
  { rewrite run_handler_add. cbn [snd st_trace add_calls].
    unfold attached_handler.
    cbn [h_settings h_element h_category h_action h_label h_value h_message].
    rewrite Hd, !default_settings by apply Ho.
    change (truthy (get track_defaults "skip_internal")) with true.
    change (get track_defaults "action") with (VStr "click").
    change (get track_defaults "value") with VNull.
    change (resolved (st_page st) (el_node (addClass "tracked" (element_of st id)))
              (get track_defaults "category"))
      with (if same_host (st_page st) (el_node (addClass "tracked" (element_of st id)))
            then VStr "internal" else VStr "external").
    change (resolved (st_page st) (el_node (addClass "tracked" (element_of st id)))
              (get track_defaults "label"))
      with (of_option (node_href (el_node (addClass "tracked" (element_of st id))))).
    rewrite same_host_addClass, node_href_addClass.
    rewrite andb_true_l.
    fold (same_host (st_page s) (el_node (element_of s id))).
    rewrite filter_app_calls.
    destruct (same_host (st_page s) (el_node (element_of s id))).
    - by rewrite filter_debug_calls.
    - simpl. f_equal.
      rewrite filter_app_calls, filter_debug_calls by done.
      replace (List.filter is_track_event
                 match pageTracker s with
                 | Some t => _
                 | None => _
                 end) with (@nil call).
      + simpl. by destruct (same_host (st_page st) (el_node (element_of st id))).
      + destruct (pageTracker s); simpl; [done|].
        by rewrite filter_debug_calls. }
  split; [exact Hgen|].
  intros Hp Hn. rewrite Hgen.
  assert (Hsame : same_host (st_page s) (el_node (element_of s id))
                  = same_host (st_page st) (el_node (element_of st id))).
  { unfold same_host. by rewrite Hp, Hn. }
  rewrite Hsame.
  by destruct (same_host (st_page st) (el_node (element_of st id))).
Qed.

Lemma default_settings_report_external_only_witness :
  hasClass "tracked" (element_of sample_state 3) = false
  /\ hasClass "tracked" (element_of sample_state 2) = false
  /\ defaults sample_state = track_defaults
  /\ (forall k, option_get None k = VUndef)
  /\ (exists type h,
        el_events (element_of (track_element None 3 sample_state).2 3)
        = [{| b_type := type; b_handler := h |}]
        /\ List.filter is_track_event
             (st_trace (run_handler h (track_element None 3 sample_state).2).2)
           = [])
  /\ (exists type h,
        el_events (element_of (track_element None 2 sample_state).2 2)
        = [{| b_type := type; b_handler := h |}]
        /\ List.filter is_track_event
             (st_trace (run_handler h (track_element None 2 sample_state).2).2)
           = [CTrackEvent (VStr "external") (VStr "click")
                (VStr "http://other.example/") VNull]).
Proof.
  split; [reflexivity|]. split; [reflexivity|]. split; [reflexivity|].
  split; [reflexivity|]. split.
  - destruct (default_settings_report_external_only None 3 sample_state
                (track_element None 3 sample_state).2 eq_refl eq_refl
                (fun k => eq_refl)) as (type & h & He & _ & Hs).
    exists type, h. split; [exact He|exact (Hs eq_refl eq_refl)].
  - destruct (default_settings_report_external_only None 2 sample_state
                (track_element None 2 sample_state).2 eq_refl eq_refl
                (fun k => eq_refl)) as (type & h & He & _ & Hs).
    exists type, h. split; [exact He|exact (Hs eq_refl eq_refl)].
Defined.

(** X9: a [skip_internal] that the caller gives as a falsy value other
    than [undefined] ([false], [null], [0], the empty string) turns the
    skip off: the bound handler calls [$.trackEvent] once, with its
    resolved tuple, every time it runs, whatever the hosts are. *)
Theorem falsy_skip_internal_reports_every_event
    (options : option (gmap string value)) (id : nat) (st s : state) :
  hasClass "tracked" (element_of st id) = false ->
  is_undef (option_get options "skip_internal") = false ->
  truthy (option_get options "skip_internal") = false ->
  exists type h,
    el_events (element_of (track_element options id st).2 id)
    = (el_events (element_of st id) ++ [{| b_type := type; b_handler := h |}])%list
    /\ List.filter is_track_event (st_trace (run_handler h s).2)
       = (List.filter is_track_event (st_trace s)
          ++ [CTrackEvent (h_category h) (h_action h) (h_label h) (h_value h)])%list.
Proof.
  intros Hm Hu Ht.
  exists (attached_type options id st), (attached_handler options id st).
  split; [by rewrite track_element_self|].
  rewrite run_handler_add. cbn [snd st_trace add_calls].
  replace (truthy (get (h_settings (attached_handler options id st)) "skip_internal"))
    with false.
  2:{ unfold attached_handler. cbn [h_settings]. by rewrite get_merged, Hu, Ht. }
  rewrite andb_false_l, filter_app_calls. simpl. do 2 f_equal.
  rewrite filter_app_calls, filter_debug_calls by done.
  destruct (pageTracker s); simpl; [done|].
  by rewrite filter_debug_calls.
Qed.

Lemma falsy_skip_internal_reports_every_event_witness :
  hasClass "tracked" (element_of sample_state 3) = false
  /\ is_undef (option_get (Some {[ "skip_internal" := VNull ]}) "skip_internal") = false
  /\ truthy (option_get (Some {[ "skip_internal" := VNull ]}) "skip_internal") = false
  /\ exists type h,
       el_events (element_of
                    (track_element (Some {[ "skip_internal" := VNull ]}) 3
                       sample_state).2 3)
       = [{| b_type := type; b_handler := h |}]
       /\ List.filter is_track_event (st_trace (run_handler h sample_state).2)
          = [CTrackEvent (h_category h) (h_action h) (h_label h) (h_value h)].
Proof.
  split; [reflexivity|]. split; [reflexivity|]. split; [reflexivity|].
  exact (falsy_skip_internal_reports_every_event
           (Some {[ "skip_internal" := VNull ]}) 3 sample_state sample_state
           eq_refl eq_refl eq_refl).
Defined.

(** *** What triggering an event leaves alone *)

Lemma forallb_debug_calls (m : string) (st : state) :
  forallb is_handler_call (debug_calls m st) = true.
Proof. unfold debug_calls. by destruct (debug_enabled st). Qed.

Lemma run_handler_calls (h : handler) (st : state) :
  exists cs, (run_handler h st).2 = add_calls cs st
             /\ forallb is_handler_call cs = true.
Proof.
  rewrite run_handler_add. cbn [snd]. eexists. split; [reflexivity|].
  destruct (truthy _ && loose_eq _ _).
  - apply forallb_debug_calls.
  - simpl. rewrite forallb_app, forallb_debug_calls, andb_true_r.
    destruct (pageTracker st); [done|]. apply forallb_debug_calls.
Qed.

Lemma run_handlers_calls (hs : list handler) (st : state) :
  exists cs, foldl (fun s h => (run_handler h s).2) st hs = add_calls cs st
             /\ forallb is_handler_call cs = true.
Proof.
  revert st. induction hs as [|h hs IH]; intros st; simpl.
  - exists []. by rewrite add_calls_nil.
  - destruct (run_handler_calls h st) as (cs1 & -> & H1).
    destruct (IH (add_calls cs1 st)) as (cs2 & -> & H2).
    exists (cs1 ++ cs2)%list. rewrite add_calls_app. split; [done|].
    by rewrite forallb_app, H1, H2.
Qed.

(** X10: triggering events, however many and on whatever elements, only
    extends the trace, and only with calls of [$.trackEvent], of the
    handle's [_trackEvent] and of [console.debug]: no handler is bound or
    removed, no class changes, no settings callback runs, no script is
    requested, and [pageTracker] and the defaults stay as they were. *)
Theorem trigger_only_reports (fires : list (nat * string)) (st : state) :
  exists cs,
    trigger_all fires st = add_calls cs st
    /\ forallb is_handler_call cs = true.
Proof.
  revert st. induction fires as [|[id type] fires IH]; intros st.
  - exists []. by rewrite add_calls_nil.
  - change (trigger_all ((id, type) :: fires) st)
      with (trigger_all fires (trigger id type st)).
    destruct (run_handlers_calls (handlers_of type (element_of st id)) st)
      as (cs1 & H1 & F1).
    unfold trigger at 1. rewrite H1.
    destruct (IH (add_calls cs1 st)) as (cs2 & -> & F2).
    exists (cs1 ++ cs2)%list. rewrite add_calls_app. split; [done|].
    by rewrite forallb_app, F1, F2.
Qed.

(** *** Setting up page tracking *)

Lemma loose_eq_strings (a b : string) :
  loose_eq (VStr a) (VStr b) = String.eqb a b.
Proof. reflexivity. Qed.

(** X11: [$.trackPage] itself only schedules: [pageTracker], the elements
    and the defaults stay as they were, and either one callback for the
    load-complete signal is added and nothing is called, or ga.js is
    requested once and one callback waits for it.  The URL is
    [https://ssl.google-analytics.com/ga.js] on a page whose protocol is
    [https:] and [http://www.google-analytics.com/ga.js] on any other. *)
Theorem trackPage_only_schedules (account_id : value)
    (options : option (gmap string value)) (st : state) :
  let st' := trackPage account_id options st in
  pageTracker st' = pageTracker st
  /\ st_dom st' = st_dom st
  /\ defaults st' = defaults st
  /\ exists job,
       job_src job = ga_src (st_page st)
       /\ job_account job = account_id
       /\ job_settings job = extend ∅ [Some page_defaults; options]
       /\ ((st_trace st' = st_trace st
            /\ st_window_load st' = (st_window_load st ++ [job])%list
            /\ st_script_load st' = st_script_load st)
           \/ (st_trace st' = (st_trace st ++ [CGetScript (ga_src (st_page st))])%list
               /\ st_window_load st' = st_window_load st
               /\ st_script_load st' = (st_script_load st ++ [job])%list)).
Proof.
  unfold trackPage. rewrite loose_eq_strings. fold (ga_src (st_page st)).
  destruct (loose_eq _ _ || loose_eq _ _); cbv zeta.
  - split; [reflexivity|]. split; [reflexivity|]. split; [reflexivity|].
    exists {| job_src := ga_src (st_page st); job_account := account_id;
              job_settings := extend ∅ [Some page_defaults; options] |}.
    split; [reflexivity|]. split; [reflexivity|].
    split; [reflexivity|]. left. repeat split.
  - split; [reflexivity|]. split; [reflexivity|]. split; [reflexivity|].
    exists {| job_src := ga_src (st_page st); job_account := account_id;
              job_settings := extend ∅ [Some page_defaults; options] |}.
    split; [reflexivity|]. split; [reflexivity|].
    split; [reflexivity|]. right. repeat split.
Qed.

Lemma filter_page_debug_calls (m : string) (st : state) :
  List.filter is_page_call (debug_calls m st) = [].
Proof. by apply filter_debug_calls. Qed.

Lemma init_analytics_loaded (job : page_job) (st : state) :
  st_gat st = GatLoaded ->
  exists st',
    init_analytics job st = Done st'
    /\ pageTracker st' = Some {| tracker_account := job_account job |}
    /\ st_page st' = st_page st
    /\ st_console st' = st_console st
    /\ st_gat st' = st_gat st
    /\ defaults st' = defaults st
    /\ st_dom st' = st_dom st
    /\ st_window_load st' = st_window_load st
    /\ st_script_load st' = st_script_load st
    /\ List.filter is_page_call (st_trace st')
       = (List.filter is_page_call (st_trace st)
          ++ [CGetTracker (job_account job);
              CTrackPageview {| tracker_account := job_account job |}
                (if loose_eq (get (job_settings job) "status_code") VNull
                    || loose_eq (get (job_settings job) "status_code") (VNum 200)
                 then None
                 else Some (error_path (get (job_settings job) "status_code")
                              (st_page st)))])%list.
Proof.
  intros Hg. unfold init_analytics. rewrite Hg. simpl negb. cbv iota.
  rewrite debug_add. simpl st_gat. rewrite Hg.
  destruct (loose_eq _ VNull || loose_eq _ (VNum 200)).
  - eexists. split; [reflexivity|]. repeat split; try exact Hg.
    simpl. rewrite !filter_app_calls, filter_page_debug_calls.
    simpl. by rewrite app_nil_r, <- app_assoc.
  - rewrite debug_add. eexists. split; [reflexivity|].
    repeat split; try exact Hg.
    simpl. rewrite !filter_app_calls, !filter_page_debug_calls.
    simpl. by rewrite !app_nil_r, <- app_assoc.
Qed.

(** X12: on a page with nothing pending where ga.js defines [_gat], for a
    [status_code] that the caller leaves out or gives as [null], a
    boolean, an integer below 2^53 or a string of digits, the
    sequence [$.trackPage], load-complete signal, script loaded ends with
    [pageTracker] holding the tracker of the given account, after exactly
    one request for ga.js, one [_getTracker] call and one pageview, in
    that order; the pageview has no path when the merged [status_code] is
    [== null] or [== 200] and the error path otherwise.  This holds
    whether the script was deferred or not. *)
Theorem page_tracking_flow (account_id : value)
    (options : option (gmap string value)) (st : state) :
  st_window_load st = [] ->
  st_script_load st = [] ->
  st_gat st = GatLoaded ->
  exact_value (option_get options "status_code") = true ->
  let status_code := get (extend ∅ [Some page_defaults; options]) "status_code" in
  let t := {| tracker_account := account_id |} in
  exists st',
    script_loaded (window_loaded (trackPage account_id options st)) = Done st'
    /\ pageTracker st' = Some t
    /\ st_script_load st' = []
    /\ List.filter is_page_call (st_trace st')
       = (List.filter is_page_call (st_trace st)
          ++ [CGetScript (ga_src (st_page st));
              CGetTracker account_id;
              CTrackPageview t
                (if loose_eq status_code VNull || loose_eq status_code (VNum 200)
                 then None
                 else Some (error_path status_code (st_page st)))])%list.
Proof.
  intros Hw Hs Hg _ status_code t.
  assert (Hflow : exists s job,
            script_loaded (window_loaded (trackPage account_id options st))
            = init_analytics job s
            /\ job_account job = account_id
            /\ job_settings job = extend ∅ [Some page_defaults; options]
            /\ st_gat s = GatLoaded /\ st_page s = st_page st
            /\ st_script_load s = []
            /\ st_trace s = (st_trace st ++ [CGetScript (ga_src (st_page st))])%list).
  { unfold trackPage, ga_src. rewrite loose_eq_strings.
    destruct (loose_eq _ _ || loose_eq _ _).
    - unfold window_loaded. cbn [st_window_load set_window_load].
      rewrite Hw. cbn [app foldl].
      unfold script_loaded, load_script.
      cbn [st_script_load set_script_load set_window_load record_call].
      rewrite Hs. cbn [app].
      eexists _, _. split; [reflexivity|].
      repeat split; try reflexivity. exact Hg.
    - unfold window_loaded, load_script.
      cbn [st_window_load set_script_load record_call].
      rewrite Hw. cbn [foldl].
      unfold script_loaded.
      cbn [st_script_load set_script_load record_call].
      rewrite Hs. cbn [app].
      eexists _, _. split; [reflexivity|].
      repeat split; try reflexivity. exact Hg. }
  destruct Hflow as (s & job & -> & Ha & Hset & Hgs & Hp & Hsl & Htr).
  destruct (init_analytics_loaded job s Hgs)
    as (st' & Hi & Hpt & _ & _ & _ & _ & _ & _ & Hsl' & Hf).
  exists st'. split; [exact Hi|].
  rewrite Ha in Hpt, Hf. rewrite Hset, Hp in Hf. fold status_code in Hf.
  split; [exact Hpt|]. split; [by rewrite Hsl'|].
  rewrite Hf, Htr, filter_app_calls. simpl. by rewrite <- app_assoc.
Qed.

Lemma page_tracking_flow_witness :
  st_window_load sample_state = []
  /\ st_script_load sample_state = []
  /\ st_gat sample_state = GatLoaded
  /\ exact_value (option_get (Some {[ "onload" := VBool false ]}) "status_code")
     = true
  /\ exists st',
       script_loaded
         (window_loaded
            (trackPage (VStr "UA-1-1")
               (Some {[ "onload" := VBool false ]}) sample_state))
       = Done st'
       /\ pageTracker st' = Some sample_tracker
       /\ st_script_load st' = []
       /\ List.filter is_page_call (st_trace st')
          = [CGetScript "http://www.google-analytics.com/ga.js";
             CGetTracker (VStr "UA-1-1");
             CTrackPageview sample_tracker None].
Proof.
  split; [reflexivity|]. split; [reflexivity|]. split; [reflexivity|].
  split; [reflexivity|].
  exact (page_tracking_flow (VStr "UA-1-1") (Some {[ "onload" := VBool false ]})
           sample_state eq_refl eq_refl eq_refl eq_refl).
Defined.

(** *** The tracker handle *)

Lemma window_loaded_jobs (jobs : list page_job) (st : state) :
  pageTracker (foldl (fun s job => load_script job s) st jobs) = pageTracker st
  /\ List.filter is_record
       (st_trace (foldl (fun s job => load_script job s) st jobs))
     = List.filter is_record (st_trace st).
Proof.
  revert st. induction jobs as [|job jobs IH]; intros st; simpl; [done|].
  destruct (IH (load_script job st)) as [-> ->]. split; [reflexivity|].
  simpl. rewrite filter_app_calls. simpl. by rewrite app_nil_r.
Qed.

Lemma run_handlers_pageTracker (hs : list handler) (st : state) :
  pageTracker (foldl (fun s h => (run_handler h s).2) st hs) = pageTracker st.
Proof. by destruct (run_handlers_calls hs st) as (cs & -> & _). Qed.

Lemma perform_pageTracker (a : action) (st : state) :
  pageTracker (perform a st) = pageTracker st.
Proof.
  destruct a as [account_id options|c a l v|ids options|id type|]; simpl.
  - unfold trackPage. by destruct (loose_eq _ _ || loose_eq _ _).
  - by rewrite trackEvent_add.
  - symmetry. apply (each_frame options ids st).
  - apply run_handlers_pageTracker.
  - apply window_loaded_jobs.
Qed.

Lemma pageTracker_changes_only_on_script_load_aux (acts : list action)
    (st : state) :
  pageTracker (perform_all acts st) = pageTracker st.
Proof.
  revert st. induction acts as [|a acts IH]; intros st; [done|].
  unfold perform_all in *. simpl. by rewrite IH, perform_pageTracker.
Qed.

(** X13: no entry point of the plugin, no bound handler and no
    load-complete signal changes [pageTracker] (or [_gat]): the handle is
    set only when a requested script has finished loading, and is kept
    from then on. *)
Theorem pageTracker_changes_only_on_script_load (acts : list action)
    (st : state) :
  pageTracker (perform_all acts st) = pageTracker st
  /\ st_gat (perform_all acts st) = st_gat st.
Proof.
  split; [apply pageTracker_changes_only_on_script_load_aux|].
  revert st. induction acts as [|a acts IH]; intros st; [done|].
  unfold perform_all in *. simpl. rewrite IH.
  destruct a as [account_id options|c a l v|ids options|id type|]; cbn [perform].
  - unfold trackPage. by destruct (loose_eq _ _ || loose_eq _ _).
  - by rewrite trackEvent_add.
  - unfold track. cbn [snd]. symmetry. apply (each_frame options ids st).
  - unfold trigger.
    by destruct (run_handlers_calls (handlers_of type (element_of st id)) st)
      as (cs & -> & _).
  - unfold window_loaded. generalize (st_window_load st) at 1.
    intros jobs. revert st. clear. induction jobs as [|j jobs IH]; intros st; [done|].
    simpl. by rewrite IH.
Qed.

Lemma filter_record_analytics (l : list call) :
  List.filter is_record (List.filter is_analytics l) = List.filter is_record l.
Proof.
  induction l as [|c l IH]; [done|].
  destruct c; simpl; by rewrite ?IH.
Qed.

Lemma run_handler_without_handle (h : handler) (st : state) :
  pageTracker st = None ->
  List.filter is_record (st_trace (run_handler h st).2)
  = List.filter is_record (st_trace st).
Proof.
  intros Hp. rewrite run_handler_add, Hp. cbn [snd st_trace add_calls].
  rewrite filter_app_calls.
  destruct (truthy _ && loose_eq _ _).
  - rewrite filter_debug_calls by done. by rewrite app_nil_r.
  - simpl. rewrite !filter_app_calls, !filter_debug_calls by done.
    by rewrite app_nil_r.
Qed.

Lemma run_handlers_without_handle (hs : list handler) (st : state) :
  pageTracker st = None ->
  List.filter is_record (st_trace (foldl (fun s h => (run_handler h s).2) st hs))
  = List.filter is_record (st_trace st).
Proof.
  revert st. induction hs as [|h hs IH]; intros st Hp; simpl; [done|].
  rewrite IH, run_handler_without_handle; [done..|].
  by destruct (run_handler_calls h st) as (cs & -> & _).
Qed.

Lemma perform_without_handle (a : action) (st : state) :
  pageTracker st = None ->
  List.filter is_record (st_trace (perform a st))
  = List.filter is_record (st_trace st).
Proof.
  intros Hp.
  destruct a as [account_id options|c a l v|ids options|id type|]; simpl.
  - unfold trackPage. destruct (loose_eq _ _ || loose_eq _ _); [done|].
    simpl. rewrite filter_app_calls. simpl. by rewrite app_nil_r.
  - rewrite trackEvent_add, Hp. cbn [st_trace add_calls].
    rewrite filter_app_calls. simpl.
    rewrite filter_debug_calls by done. by rewrite app_nil_r.
  - rewrite <- filter_record_analytics.
    rewrite (proj2 (each_frame options ids st)).
    apply filter_record_analytics.
  - by apply run_handlers_without_handle.
  - apply window_loaded_jobs.
Qed.

(** X14: while [pageTracker] is undefined, nothing is recorded with
    Google Analytics, whatever is called, tracked or triggered: neither a
    pageview nor an event. *)
Theorem nothing_recorded_without_handle (acts : list action) (st : state) :
  pageTracker st = None ->
  List.filter is_record (st_trace (perform_all acts st))
  = List.filter is_record (st_trace st).
Proof.
  revert st. induction acts as [|a acts IH]; intros st Hp; [done|].
  unfold perform_all in *. simpl.
  rewrite IH; [by apply perform_without_handle|].
  by rewrite perform_pageTracker.
Qed.

Lemma nothing_recorded_without_handle_witness :
  pageTracker sample_state = None
  /\ List.filter is_record
       (st_trace
          (perform_all
             [ATrackPage (VStr "UA-1-1") None;
              ATrack [2; 3] (Some {[ "skip_internal" := VBool false ]});
              AWindowLoaded;
              ATrigger 2 "click.track";
              ATrigger 3 "click.track";
              ATrackEvent (VStr "video") (VStr "play") VUndef VUndef]
             sample_state))
     = [].
Proof.
  split; [reflexivity|].
  exact (nothing_recorded_without_handle
           [ATrackPage (VStr "UA-1-1") None;
            ATrack [2; 3] (Some {[ "skip_internal" := VBool false ]});
            AWindowLoaded;
            ATrigger 2 "click.track";
            ATrigger 3 "click.track";
            ATrackEvent (VStr "video") (VStr "play") VUndef VUndef]
           sample_state eq_refl).
Defined.

(** X15: once a script has loaded with [_gat] defined, every later call
    of [$.trackEvent] is recorded, once and with its four arguments
    unchanged, by the tracker of the account given to [$.trackPage],
    whatever was called, tracked or triggered in between. *)
Theorem events_recorded_after_script_load (job : page_job) (st : state)
    (acts : list action) (category action_ label val : value) :
  st_gat st = GatLoaded ->
  exists st',
    init_analytics job st = Done st'
    /\ List.filter is_record
         (st_trace (trackEvent category action_ label val (perform_all acts st')))
       = (List.filter is_record (st_trace (perform_all acts st'))
          ++ [CRecordEvent {| tracker_account := job_account job |}
                category action_ label val])%list.
Proof.
  intros Hg.
  destruct (init_analytics_loaded job st Hg) as (st' & Hi & Hp & _).
  exists st'. split; [exact Hi|].
  rewrite trackEvent_add, pageTracker_changes_only_on_script_load_aux, Hp.
  cbn [st_trace add_calls]. by rewrite filter_app_calls.
Qed.

Lemma events_recorded_after_script_load_witness :
  st_gat sample_state = GatLoaded
  /\ exists st',
       init_analytics (sample_job (VNum 200)) sample_state = Done st'
       /\ List.filter is_record
            (st_trace
               (trackEvent (VStr "video") (VStr "play") (VStr "intro") (VNum 3)
                  (perform_all [ATrack [2; 3] None; ATrigger 3 "click.track"] st')))
          = (List.filter is_record
               (st_trace
                  (perform_all [ATrack [2; 3] None; ATrigger 3 "click.track"] st'))
             ++ [CRecordEvent sample_tracker (VStr "video") (VStr "play")
                   (VStr "intro") (VNum 3)])%list.
Proof.
  split; [reflexivity|].
  exact (events_recorded_after_script_load (sample_job (VNum 200)) sample_state
           [ATrack [2; 3] None; ATrigger 3 "click.track"]
           (VStr "video") (VStr "play") (VStr "intro") (VNum 3) eq_refl).
Defined.

(** *** Settings and later changes of the defaults *)

(** X16: the settings that the handler of a newly tracked element keeps
    are, property by property, the caller's value where the caller gave
    one other than [undefined], and the value that [$.fn.track.defaults]
    held at that moment otherwise; a [null] given by the caller counts as
    given. *)
Theorem handler_keeps_merged_settings (options : option (gmap string value))
    (id : nat) (st : state) (k : string) :
  hasClass "tracked" (element_of st id) = false ->
  exists type h,
    el_events (element_of (track_element options id st).2 id)
    = (el_events (element_of st id) ++ [{| b_type := type; b_handler := h |}])%list
    /\ get (h_settings h) k
       = if is_undef (option_get options k) then get (defaults st) k
         else option_get options k.
Proof.
  intros Hm.
  exists (attached_type options id st), (attached_handler options id st).
  split; [by rewrite track_element_self|].
  unfold attached_handler. cbn [h_settings]. apply get_merged.
Qed.

Lemma handler_keeps_merged_settings_witness :
  hasClass "tracked" (element_of sample_state 2) = false
  /\ exists type h,
       el_events (element_of
                    (track_element (Some {[ "value" := VUndef; "label" := VNull ]})
                       2 sample_state).2 2)
       = [{| b_type := type; b_handler := h |}]
       /\ get (h_settings h) "label" = VNull.
Proof.
  split; [reflexivity|].
  exact (handler_keeps_merged_settings
           (Some {[ "value" := VUndef; "label" := VNull ]}) 2 sample_state "label"
           eq_refl).
Defined.

(** X17: what a bound handler reports does not depend on
    [$.fn.track.defaults] at the time it runs: after any change of the
    defaults, it makes the same calls of [$.trackEvent] and of the
    handle's [_trackEvent] (only what is printed can differ). *)
Theorem handler_ignores_later_defaults (h : handler) (d : gmap string value)
    (st : state) :
  List.filter is_analytics (st_trace (run_handler h (set_defaults d st)).2)
  = List.filter is_analytics (st_trace (run_handler h st).2).
Proof.
  rewrite !run_handler_add. cbn [snd st_trace add_calls set_defaults].
  rewrite !filter_app_calls. f_equal.
  change (element_of (set_defaults d st) (h_element h))
    with (element_of st (h_element h)).
  change (st_page (set_defaults d st)) with (st_page st).
  change (pageTracker (set_defaults d st)) with (pageTracker st).
  destruct (truthy _ && loose_eq _ _).
  - by rewrite !filter_debug_calls.
  - simpl. f_equal. rewrite !filter_app_calls, !filter_debug_calls by done.
    destruct (pageTracker st); simpl; [done|].
    by rewrite !filter_debug_calls.
Qed.

(** *** Calling [$.fn.track] again *)

Lemma each_marks_first (options : option (gmap string value)) (id : nat)
    (rest : list nat) (st : state) :
  hasClass "tracked"
    (element_of (each (track_element options) (id :: rest) st) id) = true.
Proof.
  destruct (hasClass "tracked" (element_of st id)) eqn:Hm.
  - by rewrite each_stops.
  - simpl. rewrite track_element_unmarked by done. cbn [is_false].
    rewrite each_marked; rewrite element_of_set_dom_add; unfold hasClass;
      cbn [el_node]; apply (hasClass_addClass "tracked" (element_of st id)).
Qed.

(** X18: after a call of [$.fn.track] on a sequence of elements, a further
    call on the same sequence changes nothing at all, whatever its
    options: the first element carries the mark by then and ends the
    loop, also for the elements that the first call did not reach. *)
Theorem track_again_changes_nothing (ids : list nat)
    (o1 o2 : option (gmap string value)) (st : state) :
  (track ids o2 (track ids o1 st).2).2 = (track ids o1 st).2.
Proof.
  unfold track. cbn [snd]. destruct ids as [|id rest]; [done|].
  apply each_stops. apply each_marks_first.
Qed.
